(** * PoC.py: batched launch of concurrent curl workers

    A shallow embedding of [PoC.py]: the worker function [make_request],
    the construction of the payload file, the pacing loop that starts one
    thread per index, the joins and the removal of the payload file,
    together with an interleaving semantics for the main thread and the
    threads it starts.

    Conventions.
    - A Python [str] is a list of Unicode code points ([N]); [s[:k]] is
      [firstn k s].
    - A Python [int] is a [Z]; [%] is floor modulo ([Z.modulo]) and raises
      [ZeroDivisionError] on a zero divisor.
    - The [float] options of argparse are finite (no infinity, no NaN) and
      held as the rationals they denote. [time.sleep] is the one of CPython
      3.11 on 64-bit Linux: it raises [ValueError] on a negative argument
      and refuses one of 2^63 nanoseconds or more, with [OverflowError]
      but for the double that rounds to 2^63 (see [time_sleep]).
    - A thread is the sequence of the calls it makes that have an effect
      outside it ([action]), followed by its return or by the exception it
      raises. Every [print] call is one [Print] action that holds the
      interpolated values of its f-string; the fixed text and the emoji
      are left out. [print], [Thread.start] and the file calls do not
      raise.
    - Library calls are parameters of the development: [subprocess.run]
      (per calling thread), [json.loads], [json.dumps], [input] and the name
      chosen by [tempfile.NamedTemporaryFile]. [subprocess.run],
      [json.loads], [json.dumps(data, indent=2)] and [input] return or raise
      any exception ([json.loads] raises [JSONDecodeError] on a body that
      is not JSON, [RecursionError] on a deeply nested one and [ValueError]
      on an integer of too many digits; [input] raises [EOFError] at the
      end of the input). [json.dumps] of the two payload documents, which
      are built by the file itself, returns.
    - The command line is given parsed ([Args]). *)

From Stdlib Require Import ZArith QArith String Ascii List Finite Bool Lia.
Import ListNotations.
Local Open Scope Z_scope.

(** ** Values *)

Definition char : Type := N.
Definition str : Type := list char.

Definition lit (s : string) : str := map N_of_ascii (list_ascii_of_string s).

Definition str_eq_dec : forall a b : str, {a = b} + {a <> b} :=
  list_eq_dec N.eq_dec.

(** [s.rstrip(c)] for a single character [c]. *)
Definition rstrip (c : char) (s : str) : str :=
  rev ((fix drop (l : str) : str :=
          match l with
          | x :: l' => if N.eqb x c then drop l' else l
          | [] => []
          end) (rev s)).

(** [len(s.encode("utf-8"))]. *)
Definition utf8_len (s : str) : Z :=
  fold_right (fun c acc =>
    ((if (c <? 128)%N then 1 else if (c <? 2048)%N then 2
      else if (c <? 65536)%N then 3 else 4) + acc)) 0 s.

(** The objects handled by [json.dumps] and returned by [json.loads]. *)
#[local] Unset Elimination Schemes.
Inductive pyvalue : Type :=
| PyNone
| PyBool (b : bool)
| PyInt (z : Z)
| PyFloat (repr : str)
| PyStr (s : str)
| PyList (l : list pyvalue)
| PyDict (kv : list (str * pyvalue)).
#[local] Set Elimination Schemes.

(** ** Exceptions *)

Inductive exn_class : Type :=
| ZeroDivisionError
| ValueError
| OverflowError
| EOFError
| JSONDecodeError
| OtherException (name : str).

(** An instance of a subclass of [Exception]; [exn_msg e] is [str(e)]. *)
Record exn : Type := mkExn { exn_cls : exn_class; exn_msg : str }.

Inductive result (A : Type) : Type :=
| Returned (a : A)
| Raises (e : exn).
Arguments Returned {A} a.
Arguments Raises {A} e.

(** ** Console lines and actions *)

(** One constructor for each [print] call of the file. *)
Inductive line : Type :=
| UsingEndpoint (url : str)                              (* line 20 *)
| PayloadListSize (n : Z)                                (* line 23 *)
| EstimatedPayloadSize (bytes : Z)                       (* line 34 *)
| PayloadWritten (name : str)                            (* line 77 *)
| StartingRequest (thread_id : Z)                        (* line 81 *)
| SuccessPartialJSON (thread_id : Z) (preview : str)     (* line 92 *)
| InvalidJSONResponse (thread_id : Z) (preview : str)    (* line 94 *)
| CurlError (thread_id : Z) (stderr : str)               (* line 96 *)
| ExceptionLine (thread_id : Z) (msg : str)              (* line 98 *)
| CreatingThread (i : Z)                                 (* line 103 *)
| BatchLimitReached (batch_delay : Q)                    (* line 109 *)
| SleepingBeforeNext (delay : Q)                         (* line 112 *)
| RemovedTemporaryFile (name : str)                      (* line 121 *)
| AllThreadsCompleted.                                   (* line 122 *)

(** The calls with an effect outside the calling thread. A thread handle is
    the argument the thread was created with: the loop creates each thread
    with a different index. *)
Inductive action : Type :=
| Print (l : line)
| SubprocessRun (argv : list str)
| ThreadStart (i : Z)
| ThreadJoin (i : Z)
| TimeSleep (secs : Q)
| TempFileCreate (name : str)
| FileWrite (name : str) (content : str)
| FileClose (name : str)
| OsRemove (name : str)
| Input (prompt : str).

(** ** The monad of a thread: the actions done so far, then a value or a
    raised exception *)

Definition M (A : Type) : Type := (list action * result A)%type.

Definition ret {A} (a : A) : M A := ([], Returned a).

Definition bind {A B} (m : M A) (f : A -> M B) : M B :=
  match m with
  | (w, Returned a) => let (w', r) := f a in (w ++ w', r)
  | (w, Raises e) => (w, Raises e)
  end.

Definition raise {A} (e : exn) : M A := ([], Raises e).

Definition emit (a : action) : M unit := ([a], Returned tt).

(** [try: body  except <classes accepted by catches> as e: handler e]. *)
Definition try_except {A} (body : M A) (catches : exn_class -> bool)
    (handler : exn -> M A) : M A :=
  match body with
  | (w, Raises e) =>
      if catches (exn_cls e)
      then let (w', r) := handler e in (w ++ w', r)
      else (w, Raises e)
  | _ => body
  end.

Declare Scope py_scope.
Delimit Scope py_scope with py.
Notation "x <- m ;; k" := (bind m (fun x => k))
  (at level 61, m at next level, right associativity) : py_scope.
Notation "m ;; k" := (bind m (fun _ => k))
  (at level 61, right associativity) : py_scope.
Local Open Scope py_scope.

Definition actions {A} (m : M A) : list action := fst m.
Definition completion {A} (m : M A) : result A := snd m.

(** ** Built-ins *)

Definition print (l : line) : M unit := emit (Print l).

(** [a % b] on ints. *)
Definition py_mod (a b : Z) : M Z :=
  if b =? 0
  then raise (mkExn ZeroDivisionError (lit "integer modulo by zero"))
  else ret (a mod b).

Definition Qltb (x y : Q) : bool := negb (Qle_bool y x).

(** [time.sleep] turns its argument into nanoseconds in a double, rounds
    that away from zero and stores it in a signed 64-bit count. The product
    of a double not below [SLEEP_LIMIT] = (2^63 - 512) / 10^9 seconds rounds
    to 2^63 or more; beyond [SLEEP_OVERFLOW] = (2^63 + 1024) / 10^9
    seconds, on either side of zero, it rounds to a double of magnitude
    above 2^63. *)
Definition SLEEP_LIMIT : Q := 9223372036854775296 # 1000000000.
Definition SLEEP_OVERFLOW : Q := 9223372036854776832 # 1000000000.

(** [time.sleep(secs)]: a magnitude above 2^63 nanoseconds is refused with
    [OverflowError]; of what is left, a negative count, and 2^63, which
    the 64-bit count holds as its least value, are refused with
    [ValueError]. *)
Definition time_sleep (secs : Q) : M unit :=
  if Qltb SLEEP_OVERFLOW secs || Qltb secs (- SLEEP_OVERFLOW)
  then raise (mkExn OverflowError
                (lit "timestamp too large to convert to C _PyTime_t"))
  else if Qltb secs 0 || Qle_bool SLEEP_LIMIT secs
  then raise (mkExn ValueError (lit "sleep length must be non-negative"))
  else emit (TimeSleep secs).

Definition is_JSONDecodeError (c : exn_class) : bool :=
  match c with JSONDecodeError => true | _ => false end.

(** [except Exception]: every class of [exn_class]. *)
Definition is_Exception (c : exn_class) : bool := true.

(** The attributes of [subprocess.CompletedProcess] the worker reads. *)
Record CompletedProcess : Type := mkCompleted {
  returncode : Z;
  stdout : str;
  stderr : str
}.

(** ** Command line *)

Record Args : Type := mkArgs {
  domain : str;
  threads : Z;
  delay : Q;
  batch_delay : Q;
  batch_size : Z
}.

Definition PAYLOAD_SIZE : Z := 3300000.

Definition GRAPHQL_ENDPOINT (args : Args) : str :=
  rstrip 47%N (domain args) ++ lit "/api/graphql".

Definition types_list : list pyvalue :=
  [PyStr (lit "ISSUE"); PyStr (lit "TASK")]
    ++ repeat (PyStr (lit ".")) (Z.to_nat PAYLOAD_SIZE).

Definition dummy_payload : pyvalue :=
  PyDict [ (lit "query", PyStr (lit "query"));
           (lit "variables", PyDict [ (lit "types", PyList types_list) ]);
           (lit "operationName", PyStr (lit "getIssues")) ].

Definition query : str := lit "
query getIssues($fullPath: ID!, $first: Int, $state: IssuableState, $sort: IssueSort, $types: [IssueType!]) {
  project(fullPath: $fullPath) {
    issues(first: $first, state: $state, sort: $sort, types: $types) {
      nodes {
        id
        iid
        title
        state
        webUrl
        createdAt
        author {
          username
        }
      }
      pageInfo {
        hasNextPage
        endCursor
      }
    }
  }
}
".

Definition variables : pyvalue :=
  PyDict [ (lit "fullPath", PyStr (lit "1xxxxxxxx1xx123/xxxxxxx1xxxxxxx123"));
           (lit "first", PyInt 20);
           (lit "state", PyStr (lit "opened"));
           (lit "sort", PyStr (lit "CREATED_DESC"));
           (lit "types", PyList types_list) ].

Definition payload : pyvalue :=
  PyDict [ (lit "query", PyStr query);
           (lit "variables", variables);
           (lit "operationName", PyStr (lit "getIssues")) ].

(** ** The program *)

Section Program.

(** [subprocess_run thread_id argv]: what [subprocess.run(argv,
    capture_output=True, text=True)] does when the thread started with
    [thread_id] calls it: it returns a [CompletedProcess], or raises (the
    executable is missing, the output does not decode as text). *)
Variable subprocess_run : Z -> list str -> result CompletedProcess.

(** [json.loads(s)] on a [str]: the decoded object, or the exception it
    raises. *)
Variable json_loads : str -> result pyvalue.

(** [json.dumps(obj)], which is also what [json.dump(obj, fp)] writes. *)
Variable json_dumps : pyvalue -> str.

(** [json.dumps(obj, indent=2)]: the text, or the exception it raises. *)
Variable json_dumps_indent2 : pyvalue -> result str.

(** [input(prompt)]: the line read, or the exception it raises. *)
Variable stdin_input : str -> result str.

(** [temp_payload_file.name]. *)
Variable temp_payload_file_name : str.

Definition loads (s : str) : M pyvalue := ([], json_loads s).

Definition dumps_indent2 (obj : pyvalue) : M str :=
  ([], json_dumps_indent2 obj).

(** [input(prompt)]: the prompt is written, then a line is read. *)
Definition input (prompt : str) : M str := ([Input prompt], stdin_input prompt).

(** [json.dumps(json.loads(body), indent=2)], which lines 91 and 92
    compute, in this order, before anything is printed. *)
Definition reserialize (body : str) : result str :=
  match json_loads body with
  | Returned data => json_dumps_indent2 data
  | Raises e => Raises e
  end.

Definition curl_command (args : Args) : list str :=
  [ lit "curl"; lit "-k"; lit "-s"; lit "-X"; lit "POST";
    GRAPHQL_ENDPOINT args;
    lit "-H"; lit "Content-Type: application/json";
    lit "-d@" ++ temp_payload_file_name ].

(** [subprocess.run(argv, ...)] in the thread started with [thread_id]: the
    call is an action of the thread, whether it returns or raises. *)
Definition run (thread_id : Z) (argv : list str) : M CompletedProcess :=
  ([SubprocessRun argv], subprocess_run thread_id argv).

(** The line a worker prints last, by cases on what the library calls do
    (see [make_request_eq]). *)
Definition report_line (args : Args) (thread_id : Z) : line :=
  match subprocess_run thread_id (curl_command args) with
  | Raises e => ExceptionLine thread_id (exn_msg e)
  | Returned cp =>
      if returncode cp =? 0 then
        match reserialize (stdout cp) with
        | Returned text => SuccessPartialJSON thread_id (firstn 400 text)
        | Raises e =>
            if is_JSONDecodeError (exn_cls e)
            then InvalidJSONResponse thread_id (firstn 300 (stdout cp))
            else ExceptionLine thread_id (exn_msg e)
        end
      else CurlError thread_id (stderr cp)
  end.

(** Lines 81-96, the body of the outer [try]. *)
Definition request_body (args : Args) (thread_id : Z) : M unit :=
  print (StartingRequest thread_id) ;;
  result <- run thread_id (curl_command args) ;;
  if returncode result =? 0 then
    try_except
      (data <- loads (stdout result) ;;
       text <- dumps_indent2 data ;;
       print (SuccessPartialJSON thread_id (firstn 400 text)))
      is_JSONDecodeError
      (fun _ =>
         print (InvalidJSONResponse thread_id
                  (firstn 300 (stdout result))))
  else
    print (CurlError thread_id (stderr result)).

(** Lines 79-98. *)
Definition make_request (args : Args) (thread_id : Z) : M unit :=
  try_except (request_body args thread_id)
    is_Exception
    (fun e => print (ExceptionLine thread_id (exn_msg e))).

(** Lines 102-113: the iterations [i, i+1, ...] of
    [for i in range(args.threads)], [n] of them left; [ts] is the list
    [threads] at the head of iteration [i]. *)
Fixpoint threading_loop (args : Args) (n : nat) (i : Z) (ts : list Z)
    : M (list Z) :=
  match n with
  | O => ret ts
  | S n' =>
      print (CreatingThread i) ;;
      emit (ThreadStart i) ;;
      let ts := ts ++ [i] in
      r <- py_mod (i + 1) (batch_size args) ;;
      (if r =? 0 then
         print (BatchLimitReached (batch_delay args)) ;;
         time_sleep (batch_delay args)
       else ret tt) ;;
      print (SleepingBeforeNext (delay args)) ;;
      time_sleep (delay args) ;;
      threading_loop args n' (i + 1) ts
  end.

(** Lines 101-113. *)
Definition threading_logic (args : Args) : M (list Z) :=
  threading_loop args (Z.to_nat (threads args)) 0 [].

(** Lines 116-117. *)
Fixpoint join_all (ts : list Z) : M unit :=
  match ts with
  | [] => ret tt
  | t :: ts' => emit (ThreadJoin t) ;; join_all ts'
  end.

(** Lines 20-34 and 70-77. *)
Definition build_payload (args : Args) : M unit :=
  print (UsingEndpoint (GRAPHQL_ENDPOINT args)) ;;
  print (PayloadListSize PAYLOAD_SIZE) ;;
  let payload_size_bytes := utf8_len (json_dumps dummy_payload) in
  print (EstimatedPayloadSize payload_size_bytes) ;;
  emit (TempFileCreate temp_payload_file_name) ;;
  emit (FileWrite temp_payload_file_name (json_dumps payload)) ;;
  emit (FileClose temp_payload_file_name) ;;
  print (PayloadWritten temp_payload_file_name).

(** Lines 120-124. *)
Definition clean_up : M unit :=
  emit (OsRemove temp_payload_file_name) ;;
  print (RemovedTemporaryFile temp_payload_file_name) ;;
  print AllThreadsCompleted ;;
  input (lit "Press Enter to exit...") ;;
  time_sleep (100 # 1).

(** The main thread, lines 18-124. *)
Definition main (args : Args) : M unit :=
  build_payload args ;;
  ts <- threading_logic args ;;
  join_all ts ;;
  clean_up.

End Program.

(** ** The outcomes of the specification *)

Inductive Outcome : Type :=
| Success (parsedResponsePreview : str)
| TransportFailure (errorDetail : str)
| MalformedResponse (rawPreview : str)
| RuntimeFault (errorDetail : str).

(** The outcome a console line of a worker reports. *)
Definition outcome_of_line (l : line) : option Outcome :=
  match l with
  | SuccessPartialJSON _ p => Some (Success p)
  | InvalidJSONResponse _ p => Some (MalformedResponse p)
  | CurlError _ e => Some (TransportFailure e)
  | ExceptionLine _ m => Some (RuntimeFault m)
  | _ => None
  end.

Definition outcome_of_action (a : action) : option Outcome :=
  match a with
  | Print l => outcome_of_line l
  | _ => None
  end.

(** The outcomes recorded by a sequence of actions, in order. *)
Fixpoint recorded (acts : list action) : list Outcome :=
  match acts with
  | [] => []
  | a :: acts' =>
      match outcome_of_action a with
      | Some o => o :: recorded acts'
      | None => recorded acts'
      end
  end.

(** The sizes of section 4.3: at most 400 characters of the decoded object
    in a Success line, at most 300 of the raw body in an invalid-JSON line. *)
Definition preview_bounded (a : action) : Prop :=
  match a with
  | Print (SuccessPartialJSON _ p) => (length p <= 400)%nat
  | Print (InvalidJSONResponse _ p) => (length p <= 300)%nat
  | _ => True
  end.

(** The pacing of a sequence of actions: its launches and suspensions. *)
Definition is_pacing (a : action) : bool :=
  match a with
  | ThreadStart _ | TimeSleep _ => true
  | _ => false
  end.

Definition pacing (acts : list action) : list action := filter is_pacing acts.

(** [list(range(n))]. *)
Definition range (n : nat) : list Z := map Z.of_nat (seq 0 n).

(** [list(range(i, i + n))]. *)
Definition upfrom (i : Z) (n : nat) : list Z :=
  map (fun k => i + Z.of_nat k) (seq 0 n).


(** A LaunchPlan of the specification: a positive batch size and delays
    that are not negative. *)
Definition valid_plan (args : Args) : Prop :=
  0 < batch_size args /\ (0 <= delay args)%Q /\ (0 <= batch_delay args)%Q.



(** ** Threads running together

    The main thread and the threads it has started take turns, one action
    at a time, in any order; [ThreadJoin i] can be taken only once thread
    [i] has no action left. An exception that ends a thread ends that thread
    alone: a thread is its list of actions, whatever follows them. *)

Definition filesystem : Type := str -> option str.

Definition fs_write (fs : filesystem) (name content : str) : filesystem :=
  fun n => if str_eq_dec n name then Some content else fs n.

Definition fs_remove (fs : filesystem) (name : str) : filesystem :=
  fun n => if str_eq_dec n name then None else fs n.

(** What an action does to the files. *)
Definition fs_effect (a : action) (fs : filesystem) : filesystem :=
  match a with
  | TempFileCreate name => fs_write fs name []
  | FileWrite name content =>
      match fs name with
      | Some old => fs_write fs name (old ++ content)
      | None => fs_write fs name content
      end
  | OsRemove name => fs_remove fs name
  | _ => fs
  end.

(** What has happened, oldest first. A worker's event holds the files as
    they are when the action is taken: what a [curl -d@file] reads. *)
Inductive event : Type :=
| MainDid (a : action)
| WorkerDid (thread_id : Z) (a : action) (fs : filesystem).

Record config : Type := mkConfig {
  main_todo : list action;
  pool : list (Z * list action);
  files : filesystem;
  log : list event
}.

Inductive pick : Type :=
| Main
| Thread (k : nat).

Fixpoint update {A} (k : nat) (x : A) (l : list A) : list A :=
  match l, k with
  | [], _ => []
  | _ :: l', O => x :: l'
  | y :: l', S k' => y :: update k' x l'
  end.

Definition thread_finished (p : list (Z * list action)) (i : Z) : bool :=
  match find (fun t => fst t =? i) p with
  | Some (_, []) => true
  | _ => false
  end.

Section Threads.

(** The actions of [target(i)], the function the threads run. *)
Variable target : Z -> list action.

Definition main_step (c : config) : option config :=
  match main_todo c with
  | [] => None
  | a :: rest =>
      match a with
      | ThreadJoin i =>
          if thread_finished (pool c) i
          then Some (mkConfig rest (pool c) (files c) (log c ++ [MainDid a]))
          else None
      | ThreadStart i =>
          Some (mkConfig rest (pool c ++ [(i, target i)]) (files c)
                  (log c ++ [MainDid a]))
      | _ =>
          Some (mkConfig rest (pool c) (fs_effect a (files c))
                  (log c ++ [MainDid a]))
      end
  end.

Definition thread_step (k : nat) (c : config) : option config :=
  match nth_error (pool c) k with
  | Some (i, a :: rest) =>
      Some (mkConfig (main_todo c) (update k (i, rest) (pool c))
              (fs_effect a (files c))
              (log c ++ [WorkerDid i a (files c)]))
  | _ => None
  end.

Definition step (p : pick) (c : config) : option config :=
  match p with
  | Main => main_step c
  | Thread k => thread_step k c
  end.

Fixpoint exec (sched : list pick) (c : config) : option config :=
  match sched with
  | [] => Some c
  | p :: sched' =>
      match step p c with
      | Some c' => exec sched' c'
      | None => None
      end
  end.

End Threads.

Definition boot (prog : list action) (fs0 : filesystem) : config :=
  mkConfig prog [] fs0 [].

(** The actions of the main thread that have been taken. *)
Fixpoint main_log (l : list event) : list action :=
  match l with
  | [] => []
  | MainDid a :: l' => a :: main_log l'
  | WorkerDid _ _ _ :: l' => main_log l'
  end.

(** The actions thread [i] has taken. *)
Fixpoint worker_log (i : Z) (l : list event) : list action :=
  match l with
  | [] => []
  | WorkerDid j a _ :: l' =>
      if j =? i then a :: worker_log i l' else worker_log i l'
  | MainDid _ :: l' => worker_log i l'
  end.

(** The actions the workers have taken. *)
Fixpoint workers_log (l : list event) : list action :=
  match l with
  | [] => []
  | WorkerDid _ a _ :: l' => a :: workers_log l'
  | MainDid _ :: l' => workers_log l'
  end.

(** The handles of the threads a sequence of actions starts. *)
Fixpoint started (acts : list action) : list Z :=
  match acts with
  | [] => []
  | ThreadStart i :: acts' => i :: started acts'
  | _ :: acts' => started acts'
  end.

(** The files after a sequence of actions. *)
Definition replay (acts : list action) (fs0 : filesystem) : filesystem :=
  fold_left (fun fs a => fs_effect a fs) acts fs0.


(** The actions with an effect on the files. *)
Definition touches_files (a : action) : bool :=
  match a with
  | TempFileCreate _ | FileWrite _ _ | OsRemove _ => true
  | _ => false
  end.

(** ** What stays true while the threads run *)

Section Invariant.

Variable target : Z -> list action.
Variable prog : list action.
Variable fs0 : filesystem.

(** A worker's event was taken after the main thread had started that
    worker and before it had joined it, with the files the main thread
    had left at that point. *)
Definition snapshot_ok (e : event) : Prop :=
  match e with
  | MainDid _ => True
  | WorkerDid i _ fs =>
      exists d1 d2 : list action,
        prog = d1 ++ d2 /\ In i (started d1) /\
        ~ In (ThreadJoin i) d1 /\ fs = replay d1 fs0
  end.

Definition invariant (c : config) : Prop :=
  prog = main_log (log c) ++ main_todo c /\
  files c = replay (main_log (log c)) fs0 /\
  map fst (pool c) = started (main_log (log c)) /\
  (forall i, In (ThreadJoin i) (main_log (log c)) ->
             thread_finished (pool c) i = true) /\
  Forall (fun t => target (fst t) = worker_log (fst t) (log c) ++ snd t)
    (pool c) /\
  (forall i, ~ In i (started (main_log (log c))) ->
             worker_log i (log c) = []) /\
  Forall snapshot_ok (log c).

End Invariant.

(** The actions of the pacing loop. *)
Definition launch_action (a : action) : bool :=
  match a with
  | Print _ | ThreadStart _ | TimeSleep _ => true
  | _ => false
  end.

(** ** The whole run *)

Section System.

Variable subprocess_run : Z -> list str -> result CompletedProcess.
Variable json_loads : str -> result pyvalue.
Variable json_dumps : pyvalue -> str.
Variable json_dumps_indent2 : pyvalue -> result str.
Variable stdin_input : str -> result str.
Variable temp_payload_file_name : str.

(** What a started thread does: [make_request(i)]. *)
Definition worker_target (args : Args) (i : Z) : list action :=
  actions (make_request subprocess_run json_loads json_dumps_indent2
             temp_payload_file_name args i).

Definition main_program (args : Args) : list action :=
  actions (main json_dumps stdin_input temp_payload_file_name args).

(** The state reached from the start of the main thread under a
    schedule, if the schedule can be followed. *)
Definition runs (args : Args) (fs0 : filesystem) (sched : list pick)
    : option config :=
  exec (worker_target args) sched (boot (main_program args) fs0).

End System.

(** ** Two runs that differ in what the workers do *)

Section Simulation.

Variables target1 target2 : Z -> list action.

(** Two threads with the same handle and as many actions left, none of
    them on the files; the same actions where the targets agree. *)
Definition same_progress (t1 t2 : Z * list action) : Prop :=
  fst t1 = fst t2 /\
  List.length (snd t1) = List.length (snd t2) /\
  forallb (fun a => negb (touches_files a)) (snd t1) = true /\
  forallb (fun a => negb (touches_files a)) (snd t2) = true /\
  (target1 (fst t1) = target2 (fst t1) -> snd t1 = snd t2).

Definition sim (c1 c2 : config) : Prop :=
  main_todo c1 = main_todo c2 /\
  files c1 = files c2 /\
  main_log (log c1) = main_log (log c2) /\
  Forall2 same_progress (pool c1) (pool c2) /\
  (forall i, target1 i = target2 i ->
             worker_log i (log c1) = worker_log i (log c2)).

End Simulation.

(** ** What is left to do *)

Section Remaining.

Variable target : Z -> list action.

Definition weight (a : action) : nat :=
  match a with
  | ThreadStart i => S (List.length (target i))
  | _ => 1
  end.

(** The number of steps a configuration is away from its end. *)
Definition remaining (c : config) : nat :=
  (list_sum (map weight (main_todo c))
   + list_sum (map (fun t => List.length (snd t)) (pool c)))%nat.

End Remaining.

(** A program joins only threads it has started. *)
Definition joins_started (prog : list action) : Prop :=
  forall (d : list action) (i : Z) (rest : list action),
    prog = d ++ ThreadJoin i :: rest -> In i (started d).

(** ** A small setting for concrete runs

    Stand-ins for the library calls: a serializer that keeps the outermost
    shape of the object only, a decoder of what it prints that gives up on
    a body that opens too many lists, and a transport whose result depends
    on the calling thread. *)

Definition toy_dumps (v : pyvalue) : str :=
  match v with
  | PyNone => lit "null"
  | PyBool true => lit "true"
  | PyBool false => lit "false"
  | PyInt _ => lit "0"
  | PyFloat repr => repr
  | PyStr _ => lit "'...'"
  | PyList _ => lit "[...]"
  | PyDict _ => lit "{...}"
  end.

Definition toy_dumps_indent2 (v : pyvalue) : result str :=
  Returned (toy_dumps v).

(** The number of [[] a body opens with. *)
Fixpoint opening_brackets (s : str) : nat :=
  match s with
  | c :: s' => if N.eqb c 91 then S (opening_brackets s') else 0
  | [] => 0
  end.

Definition toy_recursion_error : exn :=
  mkExn (OtherException (lit "RecursionError"))
    (lit "maximum recursion depth exceeded while decoding a JSON array").

Definition toy_loads (s : str) : result pyvalue :=
  if (993 <=? opening_brackets s)%nat then Raises toy_recursion_error
  else if str_eq_dec s (lit "null") then Returned PyNone
  else if str_eq_dec s (lit "true") then Returned (PyBool true)
  else if str_eq_dec s (lit "false") then Returned (PyBool false)
  else if str_eq_dec s (lit "[]") then Returned (PyList [])
  else if str_eq_dec s (lit "{}") then Returned (PyDict [])
  else Raises (mkExn JSONDecodeError
                 (lit "Expecting value: line 1 column 1 (char 0)")).

(** A body of 1000 nested lists. *)
Definition toy_deep_body : str := repeat 91%N 1000 ++ repeat 93%N 1000.

Definition toy_deep : CompletedProcess := mkCompleted 0 toy_deep_body [].

(** Thread 0 gets a JSON body, thread 1 a failure of curl, thread 2 a body
    that is not JSON, thread 4 a body of lists nested too deep; for the
    others the executable is missing. *)
Definition toy_run (thread_id : Z) (argv : list str)
    : result CompletedProcess :=
  if thread_id =? 0 then Returned (mkCompleted 0 (lit "{}") [])
  else if thread_id =? 1 then
    Returned (mkCompleted 7 [] (lit "curl: (7) Failed to connect"))
  else if thread_id =? 2 then Returned (mkCompleted 0 (lit "<html>") [])
  else if thread_id =? 4 then Returned toy_deep
  else Raises (mkExn (OtherException (lit "FileNotFoundError"))
                 (lit "[Errno 2] No such file or directory: 'curl'")).

(** A line is typed at the prompt; or the input is at its end. *)
Definition toy_input (prompt : str) : result str := Returned [].

Definition toy_input_eof (prompt : str) : result str :=
  Raises (mkExn EOFError (lit "EOF when reading a line")).

(** A transport that succeeds for every thread. *)
Definition toy_run_ok (thread_id : Z) (argv : list str)
    : result CompletedProcess :=
  Returned (mkCompleted 0 (lit "{}") []).

Definition toy_name : str := lit "/tmp/tmpk3v9x2ab.json".

Definition no_files : filesystem := fun _ => None.

Definition toy_args (n : Z) (size : Z) : Args :=
  mkArgs (lit "https://gitlab.example.com/") n (1 # 1) (5 # 1) size.

Definition toy_request : Args -> Z -> M unit :=
  make_request toy_run toy_loads toy_dumps_indent2 toy_name.

Definition toy_body : Args -> Z -> M unit :=
  request_body toy_run toy_loads toy_dumps_indent2 toy_name.

Definition toy_main : Args -> M unit := main toy_dumps toy_input toy_name.

Definition toy_runs (args : Args) (sched : list pick) : option config :=
  runs toy_run toy_loads toy_dumps toy_dumps_indent2 toy_input toy_name args
    no_files sched.

Definition toy_ok : CompletedProcess := mkCompleted 0 (lit "{}") [].

Definition toy_missing : exn :=
  mkExn (OtherException (lit "FileNotFoundError"))
    (lit "[Errno 2] No such file or directory: 'curl'").

(** A run of two workers: thread 0 starts its request while the main
    thread is still in the loop, the two threads then take turns, and
    thread 1 ends after the main thread has joined thread 0. *)
Definition toy_schedule : list pick :=
  repeat Main 9 ++ [Thread 0]
    ++ repeat Main 4 ++ [Thread 1; Thread 0]
    ++ repeat Main 2 ++ [Thread 1; Thread 0]
    ++ [Main; Thread 1]
    ++ repeat Main 6.

Definition toy_final : config :=
  match toy_runs (toy_args 2 3) toy_schedule with
  | Some c => c
  | None => boot [] no_files
  end.



Definition toy_overflow : exn :=
  mkExn OverflowError (lit "timestamp too large to convert to C _PyTime_t").



(** ** Measures of a sequence of actions *)

(** The plan [args] with another [--domain]. *)
Definition with_domain (args : Args) (d : str) : Args :=
  mkArgs d (threads args) (delay args) (batch_delay args) (batch_size args).

(** The plan [args] with another [--batch-size]. *)
Definition with_batch_size (args : Args) (b : Z) : Args :=
  mkArgs (domain args) (threads args) (delay args) (batch_delay args) b.



Definition is_request (a : action) : bool :=
  match a with
  | SubprocessRun _ => true
  | _ => false
  end.


(** The file an action works on, if it works on one. *)
Definition file_of (a : action) : option str :=
  match a with
  | TempFileCreate name | FileWrite name _ | FileClose name
  | OsRemove name => Some name
  | _ => None
  end.

(** The sum of [f] over a sequence of actions. *)
Definition tally (f : action -> nat) (acts : list action) : nat :=
  list_sum (map f acts).

Definition request_count (a : action) : nat :=
  if is_request a then 1%nat else 0%nat.

(** ** More concrete runs *)

(** A plan with a zero batch size: the main thread ends with an exception
    after it has started thread 0, which then runs to its end. *)
Definition toy_failed_schedule : list pick :=
  repeat Main 9 ++ repeat (Thread 0) 3.

Definition toy_failed : config :=
  match toy_runs (toy_args 2 0) toy_failed_schedule with
  | Some c => c
  | None => boot [] no_files
  end.



(** The run of two workers when the input is at its end: the main thread
    goes as far as the prompt. *)
Definition toy_eof_schedule : list pick := removelast toy_schedule.

Definition toy_eof_runs (args : Args) (sched : list pick) : option config :=
  runs toy_run toy_loads toy_dumps toy_dumps_indent2 toy_input_eof toy_name
    args no_files sched.

Definition toy_eof_final : config :=
  match toy_eof_runs (toy_args 2 3) toy_eof_schedule with
  | Some c => c
  | None => boot [] no_files
  end.
(** * Properties *)

(** ** The worker *)

Section Worker.

Variable subprocess_run : Z -> list str -> result CompletedProcess.
Variable json_loads : str -> result pyvalue.
Variable json_dumps_indent2 : pyvalue -> result str.
Variable temp_payload_file_name : str.

Local Abbreviation body :=
  (request_body subprocess_run json_loads json_dumps_indent2
     temp_payload_file_name).
Local Abbreviation worker :=
  (make_request subprocess_run json_loads json_dumps_indent2
     temp_payload_file_name).
Local Abbreviation command := (curl_command temp_payload_file_name).
Local Abbreviation report :=
  (report_line subprocess_run json_loads json_dumps_indent2
     temp_payload_file_name).
Local Abbreviation decode := (reserialize json_loads json_dumps_indent2).

Lemma is_JSONDecodeError_iff (c : exn_class) :
  is_JSONDecodeError c = true <-> c = JSONDecodeError.
Proof. destruct c; simpl; split; (reflexivity || discriminate). Qed.

Lemma reserialize_returned (s text : str) :
  decode s = Returned text <->
  exists data, json_loads s = Returned data /\
               json_dumps_indent2 data = Returned text.
Proof.
  unfold reserialize. destruct (json_loads s) as [data | e].
  - split; [intros H; exists data; auto |].
    intros (data' & Hl & Hd). inversion Hl; subst. exact Hd.
  - split; [discriminate | intros (data' & Hl & _); discriminate].
Qed.

Lemma reserialize_raises (s : str) (e : exn) :
  decode s = Raises e <->
  json_loads s = Raises e \/
  exists data, json_loads s = Returned data /\
               json_dumps_indent2 data = Raises e.
Proof.
  unfold reserialize. destruct (json_loads s) as [data | e'].
  - split; [intros H; right; exists data; auto |].
    intros [Hl | (data' & Hl & Hd)]; [discriminate |].
    inversion Hl; subst. exact Hd.
  - split; [intros H; left; congruence |].
    intros [Hl | (data' & Hl & _)]; [congruence | discriminate].
Qed.

Lemma make_request_eq (args : Args) (thread_id : Z) :
  worker args thread_id =
    ([ Print (StartingRequest thread_id);
       SubprocessRun (command args);
       Print (report args thread_id) ],
     Returned tt).
Proof.
  unfold make_request, request_body, run, report_line, reserialize, loads,
    dumps_indent2.
  destruct (subprocess_run thread_id (command args)) as [cp | e];
    cbn [bind print emit try_except is_Exception app fst snd exn_cls];
    [| reflexivity].
  destruct (returncode cp =? 0);
    cbn [bind print emit try_except is_Exception app fst snd];
    [| reflexivity].
  destruct (json_loads (stdout cp)) as [data | e];
    cbn [bind print emit try_except is_Exception app fst snd].
  - destruct (json_dumps_indent2 data) as [text | e];
      cbn [bind print emit try_except is_Exception app fst snd];
      [reflexivity |].
    destruct (is_JSONDecodeError (exn_cls e)); reflexivity.
  - destruct (is_JSONDecodeError (exn_cls e)); reflexivity.
Qed.

(** The report of a worker, by cases on what the library calls do. *)
Lemma report_cases (args : Args) (thread_id : Z) :
  (exists cp,
      subprocess_run thread_id (command args) = Returned cp /\
      returncode cp <> 0 /\
      report args thread_id = CurlError thread_id (stderr cp)) \/
  (exists cp text,
      subprocess_run thread_id (command args) = Returned cp /\
      returncode cp = 0 /\ decode (stdout cp) = Returned text /\
      report args thread_id =
        SuccessPartialJSON thread_id (firstn 400 text)) \/
  (exists cp e,
      subprocess_run thread_id (command args) = Returned cp /\
      returncode cp = 0 /\ decode (stdout cp) = Raises e /\
      exn_cls e = JSONDecodeError /\
      report args thread_id =
        InvalidJSONResponse thread_id (firstn 300 (stdout cp))) \/
  (exists e,
      report args thread_id = ExceptionLine thread_id (exn_msg e) /\
      (subprocess_run thread_id (command args) = Raises e \/
       exists cp,
         subprocess_run thread_id (command args) = Returned cp /\
         returncode cp = 0 /\ decode (stdout cp) = Raises e /\
         exn_cls e <> JSONDecodeError)).
Proof.
  unfold report_line.
  destruct (subprocess_run thread_id (command args)) as [cp | e].
  - destruct (Z.eqb_spec (returncode cp) 0) as [Hz | Hnz].
    + destruct (decode (stdout cp)) as [text | e] eqn:Hd.
      * right. left. exists cp, text. auto.
      * destruct (is_JSONDecodeError (exn_cls e)) eqn:He.
        -- right. right. left. exists cp, e.
           apply is_JSONDecodeError_iff in He. auto.
        -- right. right. right. exists e. split; [reflexivity |].
           right. exists cp. repeat split; try assumption.
           intros H. apply is_JSONDecodeError_iff in H. congruence.
    + left. exists cp. auto.
  - right. right. right. exists e. auto.
Qed.

Lemma request_body_raises (args : Args) (thread_id : Z) (e : exn) :
  completion (body args thread_id) = Raises e ->
  report args thread_id = ExceptionLine thread_id (exn_msg e).
Proof.
  unfold request_body, run, report_line, reserialize, loads, dumps_indent2,
    completion.
  destruct (subprocess_run thread_id (command args)) as [cp | e'];
    cbn [bind print emit try_except app fst snd]; [| congruence].
  destruct (returncode cp =? 0);
    cbn [bind print emit try_except app fst snd]; [| discriminate].
  destruct (json_loads (stdout cp)) as [data | e'];
    cbn [bind print emit try_except app fst snd].
  - destruct (json_dumps_indent2 data) as [text | e'];
      cbn [bind print emit try_except app fst snd]; [discriminate |].
    destruct (is_JSONDecodeError (exn_cls e'));
      cbn [snd]; [discriminate | congruence].
  - destruct (is_JSONDecodeError (exn_cls e'));
      cbn [snd]; [discriminate | congruence].
Qed.

Lemma recorded_make_request (args : Args) (thread_id : Z) :
  recorded (actions (worker args thread_id)) =
    match outcome_of_line (report args thread_id) with
    | Some o => [o]
    | None => []
    end.
Proof. rewrite make_request_eq. reflexivity. Qed.

(** C1 (amended). Every execution of the worker records exactly one
    outcome, of one of four kinds: TransportFailure, holding stderr, if and
    only if [subprocess.run] returns with a return code that is not zero;
    MalformedResponse, holding the first 300 characters of the body, if and
    only if it returns with code zero and decoding the body raises
    JSONDecodeError; Success, holding the first 400 characters of
    [json.dumps(data, indent=2)], if and only if it returns with code zero
    and [json.loads] and [json.dumps] return; RuntimeFault, holding
    [str(e)], if and only if [subprocess.run] raises [e], or returns with
    code zero and decoding the body raises an [e] that is not a
    JSONDecodeError. *)
Theorem make_request_classifies (args : Args) (thread_id : Z) :
  exists o : Outcome,
    recorded (actions (worker args thread_id)) = [o] /\
    (forall d, o = TransportFailure d <->
       exists cp,
         subprocess_run thread_id (command args) = Returned cp /\
         returncode cp <> 0 /\ d = stderr cp) /\
    (forall p, o = MalformedResponse p <->
       exists cp e,
         subprocess_run thread_id (command args) = Returned cp /\
         returncode cp = 0 /\ decode (stdout cp) = Raises e /\
         exn_cls e = JSONDecodeError /\ p = firstn 300 (stdout cp)) /\
    (forall p, o = Success p <->
       exists cp data text,
         subprocess_run thread_id (command args) = Returned cp /\
         returncode cp = 0 /\ json_loads (stdout cp) = Returned data /\
         json_dumps_indent2 data = Returned text /\ p = firstn 400 text) /\
    (forall d, o = RuntimeFault d <->
       exists e,
         d = exn_msg e /\
         (subprocess_run thread_id (command args) = Raises e \/
          exists cp,
            subprocess_run thread_id (command args) = Returned cp /\
            returncode cp = 0 /\ decode (stdout cp) = Raises e /\
            exn_cls e <> JSONDecodeError)).
Proof.
  rewrite recorded_make_request.
  destruct (report_cases args thread_id)
    as [(cp & Hrun & Hrc & ->)
       | [(cp & text & Hrun & Hrc & Hdec & ->)
         | [(cp & e & Hrun & Hrc & Hdec & Hcls & ->)
           | (e & -> & Hwhy)]]];
    cbn [outcome_of_line]; eexists; (split; [reflexivity |]).
  - (* curl failed *)
    split; [intros d; split |].
    { intros H. inversion H; subst. exists cp. auto. }
    { intros (cp' & Hrun' & _ & ->). congruence. }
    split; [intros p; split; [discriminate |] |].
    { intros (cp' & e & Hrun' & Hrc' & _). congruence. }
    split; [intros p; split; [discriminate |] |].
    { intros (cp' & data & text & Hrun' & Hrc' & _). congruence. }
    intros d; split; [discriminate |].
    intros (e & _ & [Hrun' | (cp' & Hrun' & Hrc' & _)]); congruence.
  - (* the body decodes *)
    split; [intros d; split; [discriminate |] |].
    { intros (cp' & Hrun' & Hrc' & _). congruence. }
    split; [intros p; split; [discriminate |] |].
    { intros (cp' & e & Hrun' & _ & Hdec' & _). congruence. }
    split; [intros p; split |].
    { intros H. inversion H; subst.
      apply reserialize_returned in Hdec as (data & Hl & Hd).
      exists cp, data, text. auto. }
    { intros (cp' & data & text' & Hrun' & _ & Hl & Hd & ->).
      assert (Hdec' : decode (stdout cp') = Returned text')
        by (apply reserialize_returned; exists data; auto).
      congruence. }
    intros d; split; [discriminate |].
    intros (e & _ & [Hrun' | (cp' & Hrun' & _ & Hdec' & _)]); congruence.
  - (* the body is not JSON *)
    split; [intros d; split; [discriminate |] |].
    { intros (cp' & Hrun' & Hrc' & _). congruence. }
    split; [intros p; split |].
    { intros H. inversion H; subst. exists cp, e. auto. }
    { intros (cp' & e' & Hrun' & _ & _ & _ & ->). congruence. }
    split; [intros p; split; [discriminate |] |].
    { intros (cp' & data & text' & Hrun' & _ & Hl & Hd & ->).
      assert (Hdec' : decode (stdout cp') = Returned text')
        by (apply reserialize_returned; exists data; auto).
      congruence. }
    intros d; split; [discriminate |].
    intros (e' & _ & [Hrun' | (cp' & Hrun' & _ & Hdec' & Hcls')]);
      [congruence |].
    exfalso. apply Hcls'. congruence.
  - (* an exception reaches the outer handler *)
    split; [intros d; split; [discriminate |] |].
    { intros (cp' & Hrun' & Hrc' & _).
      destruct Hwhy as [Hrun | (cp & Hrun & Hrc & _)]; congruence. }
    split; [intros p; split; [discriminate |] |].
    { intros (cp' & e' & Hrun' & _ & Hdec' & Hcls' & _).
      destruct Hwhy as [Hrun | (cp & Hrun & _ & Hdec & Hcls)];
        [congruence |].
      exfalso. apply Hcls. congruence. }
    split; [intros p; split; [discriminate |] |].
    { intros (cp' & data & text' & Hrun' & _ & Hl & Hd & ->).
      assert (Hdec' : decode (stdout cp') = Returned text')
        by (apply reserialize_returned; exists data; auto).
      destruct Hwhy as [Hrun | (cp & Hrun & _ & Hdec & _)]; congruence. }
    intros d; split.
    { intros H. inversion H; subst. exists e. auto. }
    { intros (e' & -> & Hwhy'). f_equal.
      destruct Hwhy as [Hrun | (cp & Hrun & _ & Hdec & _)];
        destruct Hwhy' as [Hrun' | (cp' & Hrun' & _ & Hdec' & _)];
        congruence. }
Qed.

(** C8. Every Success line of a worker holds at most 400 characters and
    every invalid-JSON line at most 300, whatever the response; when
    [subprocess.run] returns with code zero, the line holds the first 400
    characters of [json.dumps(data, indent=2)] if the body decodes and the
    first 300 characters of the body if decoding it raises
    JSONDecodeError (any other exception gives the exception line). *)
Theorem make_request_previews_bounded (args : Args) (thread_id : Z) :
  Forall preview_bounded (actions (worker args thread_id)) /\
  (forall cp : CompletedProcess,
      subprocess_run thread_id (command args) = Returned cp ->
      returncode cp = 0 ->
      match json_loads (stdout cp) with
      | Returned data =>
          match json_dumps_indent2 data with
          | Returned text =>
              recorded (actions (worker args thread_id)) =
                [Success (firstn 400 text)]
          | Raises e =>
              recorded (actions (worker args thread_id)) =
                [if is_JSONDecodeError (exn_cls e)
                 then MalformedResponse (firstn 300 (stdout cp))
                 else RuntimeFault (exn_msg e)]
          end
      | Raises e =>
          recorded (actions (worker args thread_id)) =
            [if is_JSONDecodeError (exn_cls e)
             then MalformedResponse (firstn 300 (stdout cp))
             else RuntimeFault (exn_msg e)]
      end).
Proof.
  split.
  - rewrite make_request_eq. unfold actions. cbn [fst].
    constructor; [exact I |]. constructor; [exact I |].
    constructor; [| constructor].
    unfold report_line.
    destruct (subprocess_run thread_id (command args)) as [cp | e];
      [| exact I].
    destruct (returncode cp =? 0); [| exact I].
    destruct (decode (stdout cp)) as [text | e];
      [cbn [preview_bounded]; apply firstn_le_length |].
    destruct (is_JSONDecodeError (exn_cls e));
      [cbn [preview_bounded]; apply firstn_le_length | exact I].
  - intros cp Hrun Hz. rewrite recorded_make_request.
    unfold report_line, reserialize. rewrite Hrun, Hz.
    change (0 =? 0) with true. cbv iota.
    destruct (json_loads (stdout cp)) as [data | e].
    + destruct (json_dumps_indent2 data) as [text | e]; [reflexivity |].
      destruct (is_JSONDecodeError (exn_cls e)); reflexivity.
    + destruct (is_JSONDecodeError (exn_cls e)); reflexivity.
Qed.

End Worker.

(** ** The pacing loop *)






Lemma upfrom_S (i : Z) (n : nat) : upfrom i (S n) = i :: upfrom (i + 1) n.
Proof.
  unfold upfrom. simpl. rewrite Z.add_0_r. f_equal.
  rewrite <- seq_shift, map_map.
  apply map_ext. intros k. lia.
Qed.



Lemma bind_returned {A B} (m : M A) (f : A -> M B) (a : A) :
  completion m = Returned a ->
  bind m f = (actions m ++ actions (f a), completion (f a)).
Proof.
  destruct m as [w r]. unfold completion, actions. simpl.
  intros ->. destruct (f a). reflexivity.
Qed.

Lemma bind_raises {A B} (m : M A) (f : A -> M B) (e : exn) :
  completion m = Raises e -> bind m f = (actions m, Raises e).
Proof.
  destruct m as [w r]. unfold completion, actions. simpl.
  intros ->. reflexivity.
Qed.



Lemma time_sleep_cases (secs : Q) :
  time_sleep secs = ([TimeSleep secs], Returned tt) \/
  exists e, time_sleep secs = ([], Raises e).
Proof.
  unfold time_sleep.
  destruct (Qltb SLEEP_OVERFLOW secs || Qltb secs (- SLEEP_OVERFLOW));
    [right; eexists; reflexivity |].
  destruct (Qltb secs 0 || Qle_bool SLEEP_LIMIT secs);
    [right; eexists; reflexivity | left; reflexivity].
Qed.

Lemma threading_loop_shape (args : Args) (n : nat) :
  forall (i : Z) (ts : list Z),
  exists k : nat,
    (k <= n)%nat /\
    forallb launch_action (actions (threading_loop args n i ts)) = true /\
    started (actions (threading_loop args n i ts)) = upfrom i k /\
    (forall ts', completion (threading_loop args n i ts) = Returned ts' ->
                 k = n /\ ts' = ts ++ upfrom i n).
Proof.
  induction n as [| n IH]; intros i ts.
  - exists 0%nat. split; [lia |]. split; [reflexivity |].
    split; [reflexivity |].
    intros ts' H. inversion H. rewrite app_nil_r. split; reflexivity.
  - destruct (IH (i + 1) (ts ++ [i])) as (k & Hk & Hla & Hst & Hret).
    cbn [threading_loop]. unfold py_mod, print, emit.
    destruct (threading_loop args n (i + 1) (ts ++ [i])) as [w r].
    unfold actions, completion in *. cbn [fst snd] in *.
    assert (Hstop : forall e,
      exists k0 : nat,
        (k0 <= S n)%nat /\ true = true /\ [i] = upfrom i k0 /\
        (forall ts', @Raises (list Z) e = Returned ts' ->
                     k0 = S n /\ ts' = ts ++ upfrom i (S n))).
    { intros e. exists 1%nat. split; [lia |]. split; [reflexivity |].
      split; [rewrite upfrom_S; reflexivity |]. intros ts' H. discriminate. }
    assert (Hgo :
      exists k0 : nat,
        (k0 <= S n)%nat /\ forallb launch_action w = true /\
        i :: started w = upfrom i k0 /\
        (forall ts', r = Returned ts' ->
                     k0 = S n /\ ts' = ts ++ upfrom i (S n))).
    { exists (S k). split; [lia |]. split; [exact Hla |].
      split; [rewrite upfrom_S, Hst; reflexivity |].
      intros ts' Hr. destruct (Hret ts' Hr) as [-> ->].
      split; [reflexivity |].
      rewrite upfrom_S, <- app_assoc. reflexivity. }
    destruct (time_sleep_cases (batch_delay args)) as [Hb | [eb Hb]];
      destruct (time_sleep_cases (delay args)) as [Hd | [ed Hd]];
      rewrite ?Hb, ?Hd;
      (destruct (batch_size args =? 0); [simpl; apply Hstop |]);
      simpl;
      (destruct ((i + 1) mod batch_size args =? 0));
      rewrite ?Hb, ?Hd; simpl;
      first [apply Hstop | destruct r; exact Hgo].
Qed.

Lemma launch_no_join (l : list action) (i : Z) :
  forallb launch_action l = true -> ~ In (ThreadJoin i) l.
Proof.
  intros H Hin. rewrite forallb_forall in H.
  specialize (H _ Hin). discriminate.
Qed.


(** C7. With total=10, batchSize=3, interLaunchDelay=1s and batchDelay=5s
    the loop starts the threads 0..9 in order, sleeps 5s right after the
    starts of 2, 5 and 8 and nowhere else, and sleeps 1s after every start:
    three batch sleeps and ten inter-launch sleeps. *)
Theorem schedule_10_by_3 :
  let args := mkArgs (lit "https://gitlab.example.com") 10 (1 # 1) (5 # 1) 3 in
  let batch := TimeSleep (5 # 1) in
  let inter := TimeSleep (1 # 1) in
  pacing (actions (threading_logic args)) =
    [ ThreadStart 0; inter;
      ThreadStart 1; inter;
      ThreadStart 2; batch; inter;
      ThreadStart 3; inter;
      ThreadStart 4; inter;
      ThreadStart 5; batch; inter;
      ThreadStart 6; inter;
      ThreadStart 7; inter;
      ThreadStart 8; batch; inter;
      ThreadStart 9; inter ] /\
  completion (threading_logic args) = Returned (range 10) /\
  List.length (filter (fun a => match a with
                                | TimeSleep (5 # 1) => true
                                | _ => false
                                end)
                 (actions (threading_logic args))) = 3%nat /\
  List.length (filter (fun a => match a with
                                | TimeSleep (1 # 1) => true
                                | _ => false
                                end)
                 (actions (threading_logic args))) = 10%nat.
Proof. repeat split; vm_compute; reflexivity. Qed.

(** C9. With [batch_size = 0] and at least one thread, the loop, which
    checks nothing beforehand, raises ZeroDivisionError in its first
    iteration, after it has started thread 0: the main thread ends with
    that exception, having slept and joined nothing. *)
Theorem zero_batch_size_raises
    (json_dumps : pyvalue -> str) (stdin_input : str -> result str)
    (temp_payload_file_name : str) (args : Args) :
  batch_size args = 0 ->
  1 <= threads args ->
  exists e : exn,
    exn_cls e = ZeroDivisionError /\
    threading_logic args =
      ([Print (CreatingThread 0); ThreadStart 0], Raises e) /\
    main json_dumps stdin_input temp_payload_file_name args =
      (actions (build_payload json_dumps temp_payload_file_name args)
         ++ [Print (CreatingThread 0); ThreadStart 0],
       Raises e) /\
    pacing (actions (main json_dumps stdin_input temp_payload_file_name args)) =
      [ThreadStart 0] /\
    (forall i, ~ In (ThreadJoin i)
                   (actions (main json_dumps stdin_input temp_payload_file_name args))).
Proof.
  intros Hbs Hn.
  exists (mkExn ZeroDivisionError (lit "integer modulo by zero")).
  split; [reflexivity |].
  assert (Hloop : threading_logic args =
    ([Print (CreatingThread 0); ThreadStart 0],
     Raises (mkExn ZeroDivisionError (lit "integer modulo by zero")))).
  { unfold threading_logic.
    destruct (Z.to_nat (threads args)) as [| m] eqn:Hm; [lia |].
    cbn [threading_loop]. unfold py_mod. rewrite Hbs. reflexivity. }
  assert (Hmain : main json_dumps stdin_input temp_payload_file_name args =
    (actions (build_payload json_dumps temp_payload_file_name args)
       ++ [Print (CreatingThread 0); ThreadStart 0],
     Raises (mkExn ZeroDivisionError (lit "integer modulo by zero")))).
  { unfold main.
    rewrite (bind_returned _ _ tt) by reflexivity.
    rewrite (bind_raises _ _ _ (f_equal snd Hloop)).
    rewrite Hloop. reflexivity. }
  split; [exact Hloop |]. split; [exact Hmain |].
  rewrite Hmain. unfold actions. cbn [fst]. split.
  - reflexivity.
  - intros i [H | [H | [H | [H | [H | [H | [H | [H | [H | []]]]]]]]]];
      discriminate.
Qed.

(** ** Logs and replays *)

Lemma main_log_app (l1 l2 : list event) :
  main_log (l1 ++ l2) = main_log l1 ++ main_log l2.
Proof.
  induction l1 as [| [a | j a fs] l1 IH]; simpl; [reflexivity | |];
    rewrite IH; reflexivity.
Qed.

Lemma worker_log_app (i : Z) (l1 l2 : list event) :
  worker_log i (l1 ++ l2) = worker_log i l1 ++ worker_log i l2.
Proof.
  induction l1 as [| [a | j a fs] l1 IH]; simpl; [reflexivity | |].
  - exact IH.
  - destruct (j =? i); simpl; rewrite IH; reflexivity.
Qed.

Lemma workers_log_app (l1 l2 : list event) :
  workers_log (l1 ++ l2) = workers_log l1 ++ workers_log l2.
Proof.
  induction l1 as [| [a | j a fs] l1 IH]; simpl; [reflexivity | |];
    rewrite IH; reflexivity.
Qed.

Lemma started_app (l1 l2 : list action) :
  started (l1 ++ l2) = started l1 ++ started l2.
Proof.
  induction l1 as [| a l1 IH]; simpl; [reflexivity |].
  destruct a; simpl; rewrite IH; reflexivity.
Qed.

Lemma replay_app (l1 l2 : list action) (fs : filesystem) :
  replay (l1 ++ l2) fs = replay l2 (replay l1 fs).
Proof. unfold replay. apply fold_left_app. Qed.

Lemma fs_effect_neutral (a : action) (fs : filesystem) :
  touches_files a = false -> fs_effect a fs = fs.
Proof. destruct a; simpl; intros H; (discriminate || reflexivity). Qed.

Lemma replay_neutral (l : list action) (fs : filesystem) :
  forallb (fun a => negb (touches_files a)) l = true -> replay l fs = fs.
Proof.
  revert fs. induction l as [| a l IH]; intros fs H; [reflexivity |].
  simpl in H. apply andb_prop in H as [Ha Hl].
  unfold replay. simpl. rewrite fs_effect_neutral.
  - apply IH. exact Hl.
  - destruct (touches_files a); [discriminate | reflexivity].
Qed.

Lemma started_In (i : Z) (l : list action) :
  In i (started l) <-> In (ThreadStart i) l.
Proof.
  induction l as [| a l IH]; simpl; [tauto |].
  destruct a; simpl; rewrite IH; split; intros H;
    try (right; exact H);
    try (destruct H as [H | H]; [discriminate | exact H]).
  - destruct H as [H | H]; [left; congruence | right; exact H].
  - destruct H as [H | H]; [left; congruence | right; exact H].
Qed.

(** ** The pool *)

Lemma find_nodup (p : list (Z * list action)) (k : nat) (i : Z)
    (todo : list action) :
  NoDup (map fst p) ->
  nth_error p k = Some (i, todo) ->
  find (fun t => fst t =? i) p = Some (i, todo).
Proof.
  revert k. induction p as [| [j tj] p IH]; intros k Hnd Hk.
  - destruct k; discriminate.
  - simpl in Hnd. inversion Hnd as [| ? ? Hnotin Hnd']; subst.
    destruct k as [| k]; simpl in Hk.
    + inversion Hk; subst. simpl. rewrite Z.eqb_refl. reflexivity.
    + simpl. destruct (Z.eqb_spec j i) as [-> | Hne].
      * exfalso. apply Hnotin.
        apply nth_error_In in Hk.
        apply (in_map fst) in Hk. exact Hk.
      * apply (IH k); assumption.
Qed.

Lemma map_fst_update (p : list (Z * list action)) (k : nat) (i : Z)
    (old new : list action) :
  nth_error p k = Some (i, old) ->
  map fst (update k (i, new) p) = map fst p.
Proof.
  revert k. induction p as [| [j tj] p IH]; intros k Hk.
  - destruct k; discriminate.
  - destruct k as [| k]; simpl in Hk |- *.
    + inversion Hk; subst. reflexivity.
    + f_equal. apply (IH k). exact Hk.
Qed.

Lemma thread_finished_app (p q : list (Z * list action)) (i : Z) :
  thread_finished p i = true -> thread_finished (p ++ q) i = true.
Proof.
  unfold thread_finished.
  induction p as [| [j tj] p IH]; simpl; [discriminate |].
  destruct (j =? i); [trivial | exact IH].
Qed.

Lemma thread_finished_update (p : list (Z * list action)) (k : nat)
    (i j : Z) (a : action) (rest : list action) :
  nth_error p k = Some (i, a :: rest) ->
  thread_finished p j = true ->
  thread_finished (update k (i, rest) p) j = true.
Proof.
  unfold thread_finished.
  revert k. induction p as [| [j' tj] p IH]; intros k Hk Hf.
  - destruct k; discriminate.
  - destruct k as [| k]; simpl in Hk, Hf |- *.
    + inversion Hk; subst.
      destruct (i =? j); [discriminate | exact Hf].
    + destruct (j' =? j); [exact Hf | apply (IH k); assumption].
Qed.

(** ** Preservation *)

Section Preservation.

Variable target : Z -> list action.
Variable prog : list action.
Variable fs0 : filesystem.

Hypothesis target_neutral :
  forall i, forallb (fun a => negb (touches_files a)) (target i) = true.
Hypothesis started_nodup : NoDup (started prog).

Local Abbreviation inv := (invariant target prog fs0).

Lemma invariant_boot : inv (boot prog fs0).
Proof.
  unfold invariant, boot. simpl.
  repeat split; try reflexivity; try constructor.
  intros i [].
Qed.

Lemma invariant_main_generic (c : config) (a : action)
    (rest : list action) (p' : list (Z * list action)) :
  inv c ->
  main_todo c = a :: rest ->
  map fst p' = started (main_log (log c) ++ [a]) ->
  (forall i, In (ThreadJoin i) (main_log (log c) ++ [a]) ->
             thread_finished p' i = true) ->
  Forall (fun t => target (fst t) = worker_log (fst t) (log c) ++ snd t)
    p' ->
  inv (mkConfig rest p' (fs_effect a (files c)) (log c ++ [MainDid a])).
Proof.
  intros (Hprog & Hfiles & Hpool & Hjoin & Hthreads & Hfresh & Hsnap)
    Htodo Hp' Hj' Ht'.
  unfold invariant. cbn [main_todo pool files log].
  rewrite main_log_app. cbn [main_log].
  split; [rewrite <- app_assoc, Hprog, Htodo; reflexivity |].
  split; [rewrite replay_app, <- Hfiles; reflexivity |].
  split; [exact Hp' |].
  split; [exact Hj' |].
  split.
  { eapply Forall_impl; [| exact Ht'].
    intros t Ht. rewrite worker_log_app. cbn [worker_log].
    rewrite app_nil_r. exact Ht. }
  split.
  { intros i Hi. rewrite worker_log_app. cbn [worker_log].
    rewrite app_nil_r. apply Hfresh.
    intros Hin. apply Hi. rewrite started_app.
    apply in_or_app. left. exact Hin. }
  apply Forall_app. split; [exact Hsnap |].
  constructor; [exact I | constructor].
Qed.

Lemma invariant_main_step (c c' : config) :
  inv c -> main_step target c = Some c' -> inv c'.
Proof.
  intros Hinv Hstep.
  pose proof Hinv as
    (Hprog & Hfiles & Hpool & Hjoin & Hthreads & Hfresh & Hsnap).
  unfold main_step in Hstep.
  destruct (main_todo c) as [| a rest] eqn:Htodo; [discriminate |].
  assert (Hother :
    started [a] = [] -> (forall i, a <> ThreadJoin i) ->
    inv (mkConfig rest (pool c) (fs_effect a (files c))
           (log c ++ [MainDid a]))).
  { intros Hs Hnj. apply invariant_main_generic; try assumption.
    - rewrite started_app, Hs, app_nil_r. exact Hpool.
    - intros i Hi. apply in_app_or in Hi as [Hi | [Hi | []]].
      + apply Hjoin. exact Hi.
      + exfalso. apply (Hnj i). exact Hi. }
  destruct a;
    try (inversion Hstep; subst c'; apply Hother;
         [reflexivity | intros ? ?; discriminate]).
  - (* ThreadStart i *)
    inversion Hstep; subst c'.
    change (files c) with (fs_effect (ThreadStart i) (files c)).
    assert (Hnew : ~ In i (started (main_log (log c)))).
    { rewrite Hprog, started_app in started_nodup.
      cbn [started] in started_nodup.
      apply NoDup_remove_2 in started_nodup.
      intros Hin. apply started_nodup. apply in_or_app. left. exact Hin. }
    apply invariant_main_generic; try assumption.
    + rewrite map_app, started_app, Hpool. reflexivity.
    + intros j Hj. apply in_app_or in Hj as [Hj | [Hj | []]];
        [| discriminate].
      apply thread_finished_app. apply Hjoin. exact Hj.
    + apply Forall_app. split; [exact Hthreads |].
      constructor; [| constructor].
      cbn [fst snd]. rewrite (Hfresh i Hnew). reflexivity.
  - (* ThreadJoin i *)
    destruct (thread_finished (pool c) i) eqn:Hfin; [| discriminate].
    inversion Hstep; subst c'.
    change (files c) with (fs_effect (ThreadJoin i) (files c)).
    apply invariant_main_generic; try assumption.
    + rewrite started_app, app_nil_r. exact Hpool.
    + intros j Hj. apply in_app_or in Hj as [Hj | [Hj | []]].
      * apply Hjoin. exact Hj.
      * inversion Hj; subst. exact Hfin.
Qed.

Lemma worker_log_snoc_same (i : Z) (l : list event) (a : action)
    (fs : filesystem) :
  worker_log i (l ++ [WorkerDid i a fs]) = worker_log i l ++ [a].
Proof.
  rewrite worker_log_app. cbn [worker_log]. rewrite Z.eqb_refl. reflexivity.
Qed.

Lemma worker_log_snoc_other (i j : Z) (l : list event) (a : action)
    (fs : filesystem) :
  j <> i -> worker_log j (l ++ [WorkerDid i a fs]) = worker_log j l.
Proof.
  intros Hne. rewrite worker_log_app. cbn [worker_log].
  destruct (Z.eqb_spec i j) as [-> | _]; [contradiction |].
  apply app_nil_r.
Qed.

Lemma threads_update (p : list (Z * list action)) (k : nat) (i : Z)
    (a : action) (rest : list action) (l : list event) (fs : filesystem) :
  NoDup (map fst p) ->
  nth_error p k = Some (i, a :: rest) ->
  Forall (fun t => target (fst t) = worker_log (fst t) l ++ snd t) p ->
  Forall (fun t => target (fst t) =
                     worker_log (fst t) (l ++ [WorkerDid i a fs]) ++ snd t)
    (update k (i, rest) p).
Proof.
  revert k. induction p as [| [j tj] p IH]; intros k Hnd Hk Hall.
  - destruct k; discriminate.
  - cbn [map fst] in Hnd. inversion Hnd as [| ? ? Hnotin Hnd']; subst.
    inversion Hall as [| ? ? Hhead Htail]; subst. cbn [fst snd] in Hhead.
    destruct k as [| k]; cbn [nth_error] in Hk; cbn [update].
    + inversion Hk; subst. constructor.
      * cbn [fst snd]. rewrite worker_log_snoc_same, <- app_assoc.
        exact Hhead.
      * rewrite Forall_forall in Htail |- *. intros [j' tj'] Hin.
        cbn [fst snd]. rewrite worker_log_snoc_other.
        -- apply (Htail _ Hin).
        -- intros ->. apply Hnotin.
           apply (in_map fst) in Hin. exact Hin.
    + constructor.
      * cbn [fst snd]. rewrite worker_log_snoc_other; [exact Hhead |].
        intros ->. apply Hnotin.
        apply nth_error_In in Hk. apply (in_map fst) in Hk. exact Hk.
      * apply (IH k); assumption.
Qed.

Lemma invariant_thread_step (k : nat) (c c' : config) :
  inv c -> thread_step k c = Some c' -> inv c'.
Proof.
  intros (Hprog & Hfiles & Hpool & Hjoin & Hthreads & Hfresh & Hsnap) Hstep.
  unfold thread_step in Hstep.
  destruct (nth_error (pool c) k) as [[i [| a rest]] |] eqn:Hk;
    try discriminate.
  inversion Hstep; subst c'; clear Hstep.
  assert (Hnd : NoDup (map fst (pool c))).
  { rewrite Hpool. rewrite Hprog, started_app in started_nodup.
    apply NoDup_app_remove_r in started_nodup. exact started_nodup. }
  assert (Hin : In i (started (main_log (log c)))).
  { rewrite <- Hpool. apply nth_error_In in Hk.
    apply (in_map fst) in Hk. exact Hk. }
  assert (Hti : target i = worker_log i (log c) ++ a :: rest).
  { rewrite Forall_forall in Hthreads.
    apply (Hthreads (i, a :: rest)). eapply nth_error_In. exact Hk. }
  assert (Ha : fs_effect a (files c) = files c).
  { apply fs_effect_neutral.
    pose proof (target_neutral i) as Hn.
    rewrite Hti, forallb_app in Hn. apply andb_prop in Hn as [_ Hn].
    cbn [forallb] in Hn. apply andb_prop in Hn as [Hn _].
    destruct (touches_files a); [discriminate | reflexivity]. }
  unfold invariant. cbn [main_todo pool files log].
  rewrite main_log_app. cbn [main_log]. rewrite app_nil_r.
  split; [exact Hprog |].
  split; [rewrite Ha; exact Hfiles |].
  split; [rewrite (map_fst_update _ _ _ _ _ Hk); exact Hpool |].
  split.
  { intros j Hj. eapply thread_finished_update; [exact Hk |].
    apply Hjoin. exact Hj. }
  split; [apply threads_update; assumption |].
  split.
  { intros j Hj. rewrite worker_log_snoc_other; [apply Hfresh; exact Hj |].
    intros ->. contradiction. }
  apply Forall_app. split; [exact Hsnap |].
  constructor; [| constructor].
  exists (main_log (log c)), (main_todo c).
  split; [exact Hprog |]. split; [exact Hin |].
  split; [| exact Hfiles].
  intros Hj. apply Hjoin in Hj. unfold thread_finished in Hj.
  rewrite (find_nodup _ _ _ _ Hnd Hk) in Hj. discriminate.
Qed.

Lemma invariant_step (p : pick) (c c' : config) :
  inv c -> step target p c = Some c' -> inv c'.
Proof.
  destruct p as [| k]; simpl.
  - apply invariant_main_step.
  - apply invariant_thread_step.
Qed.

Lemma invariant_exec (sched : list pick) (c c' : config) :
  inv c -> exec target sched c = Some c' -> inv c'.
Proof.
  revert c. induction sched as [| p sched IH]; intros c Hinv Hexec.
  - simpl in Hexec. inversion Hexec; subst. exact Hinv.
  - simpl in Hexec.
    destruct (step target p c) as [c1 |] eqn:Hstep; [| discriminate].
    apply (IH c1); [| exact Hexec].
    eapply invariant_step; eassumption.
Qed.

Lemma invariant_reachable (sched : list pick) (c : config) :
  exec target sched (boot prog fs0) = Some c -> inv c.
Proof. apply invariant_exec. apply invariant_boot. Qed.

End Preservation.

(** ** The shape of the main thread *)

Lemma join_all_eq (ts : list Z) : join_all ts = (map ThreadJoin ts, Returned tt).
Proof.
  induction ts as [| t ts IH]; [reflexivity |].
  cbn [join_all]. rewrite IH. reflexivity.
Qed.

Lemma started_joins (ts : list Z) : started (map ThreadJoin ts) = [].
Proof. induction ts as [| t ts IH]; [reflexivity | exact IH]. Qed.

Lemma joins_neutral (ts : list Z) :
  forallb (fun a => negb (touches_files a)) (map ThreadJoin ts) = true.
Proof. induction ts as [| t ts IH]; [reflexivity | exact IH]. Qed.

Lemma launch_neutral (l : list action) :
  forallb launch_action l = true ->
  forallb (fun a => negb (touches_files a)) l = true.
Proof.
  induction l as [| a l IH]; [reflexivity |].
  simpl. intros H. apply andb_prop in H as [Ha Hl].
  rewrite (IH Hl), andb_true_r. destruct a; (discriminate || reflexivity).
Qed.

Lemma range_NoDup (n : nat) : NoDup (range n).
Proof.
  unfold range. apply Injective_map_NoDup.
  - intros a b. apply Nat2Z.inj.
  - apply seq_NoDup.
Qed.

Lemma prefix_past {A} (x : A) (p q d1 d2 : list A) :
  d1 ++ d2 = p ++ q -> In x d1 -> ~ In x p ->
  exists m, d1 = p ++ m /\ q = m ++ d2 /\ In x m.
Proof.
  revert d1. induction p as [| y p IH]; intros d1 Heq Hin Hnot.
  - exists d1. simpl in Heq. auto.
  - destruct d1 as [| z d1]; [contradiction |].
    simpl in Heq. inversion Heq; subst.
    destruct Hin as [-> | Hin]; [exfalso; apply Hnot; left; reflexivity |].
    destruct (IH d1 H1 Hin) as (m & -> & -> & Hm).
    + intros H. apply Hnot. right. exact H.
    + exists m. auto.
Qed.

Lemma prefix_neutral (p d1 d2 : list action) :
  d1 ++ d2 = p ->
  forallb (fun a => negb (touches_files a)) p = true ->
  forallb (fun a => negb (touches_files a)) d1 = true.
Proof.
  intros <- H. rewrite forallb_app in H.
  apply andb_prop in H as [H _]. exact H.
Qed.

Section MainShape.

Variable json_dumps : pyvalue -> str.
Variable stdin_input : str -> result str.
Variable temp_payload_file_name : str.

Local Abbreviation name := temp_payload_file_name.
Local Abbreviation prog := (main_program json_dumps stdin_input name).
Local Abbreviation build := (build_payload json_dumps name).
Local Abbreviation tidy := (clean_up stdin_input name).
Local Abbreviation whole := (main json_dumps stdin_input name).
Local Abbreviation prompt := (lit "Press Enter to exit...").

Lemma build_actions_eq (args : Args) :
  actions (build args) =
    [ Print (UsingEndpoint (GRAPHQL_ENDPOINT args));
      Print (PayloadListSize PAYLOAD_SIZE);
      Print (EstimatedPayloadSize (utf8_len (json_dumps dummy_payload)));
      TempFileCreate name;
      FileWrite name (json_dumps payload);
      FileClose name;
      Print (PayloadWritten name) ].
Proof. reflexivity. Qed.

(** The clean-up removes the file and prompts; it sleeps if, and only if,
    [input] returns, and raises what [input] raises. *)
Lemma clean_up_eq :
  tidy =
    ([ OsRemove name;
       Print (RemovedTemporaryFile name);
       Print AllThreadsCompleted;
       Input prompt ]
       ++ match stdin_input prompt with
          | Returned _ => [TimeSleep (100 # 1)]
          | Raises _ => []
          end,
     match stdin_input prompt with
     | Returned _ => Returned tt
     | Raises e => Raises e
     end).
Proof.
  unfold clean_up, input, print, emit.
  destruct (stdin_input prompt); reflexivity.
Qed.

Lemma clean_up_actions :
  exists rest : list action,
    actions tidy = OsRemove name :: rest /\
    forallb (fun a => negb (touches_files a)) rest = true /\
    started rest = [] /\
    (forall i, ~ In (ThreadJoin i) rest).
Proof.
  rewrite clean_up_eq. unfold actions. cbn [fst app].
  eexists. split; [reflexivity |].
  destruct (stdin_input prompt); (split; [reflexivity |]);
    (split; [reflexivity |]); intros i H; simpl in H;
    repeat (destruct H as [H | H]; [discriminate |]); exact H.
Qed.

(** The main thread builds the payload, then takes actions that leave the
    files alone (the loop, then the joins if the loop returns), then
    cleans up if the loop has returned. *)
Lemma main_shape (args : Args) :
  exists (k : nat) (mid fin : list action),
    prog args = actions (build args) ++ mid ++ fin /\
    forallb (fun a => negb (touches_files a)) mid = true /\
    started mid = range k /\
    ((fin = [] /\
      (exists e, completion (threading_logic args) = Raises e /\
                 completion (whole args) = Raises e) /\
      forall i, ~ In (ThreadJoin i) mid) \/
     (fin = actions tidy /\
      (exists ts, completion (threading_logic args) = Returned ts) /\
      completion (whole args) = completion tidy /\
      k = Z.to_nat (threads args) /\
      forall i, In i (range k) -> In (ThreadJoin i) mid)).
Proof.
  unfold main_program, main.
  rewrite (bind_returned _ _ tt) by reflexivity.
  destruct (threading_loop_shape args (Z.to_nat (threads args)) 0 [])
    as (k & Hk & Hla & Hst & Hret).
  fold (threading_logic args) in Hla, Hst, Hret.
  destruct (completion (threading_logic args)) as [ts | e] eqn:Hc.
  - destruct (Hret ts eq_refl) as [-> ->]. simpl app.
    change (upfrom 0 (Z.to_nat (threads args)))
      with (range (Z.to_nat (threads args))) in *.
    rewrite (bind_returned _ _ _ Hc).
    rewrite (bind_returned _ _ tt) by (rewrite join_all_eq; reflexivity).
    rewrite join_all_eq.
    exists (Z.to_nat (threads args)),
      (actions (threading_logic args)
         ++ map ThreadJoin (range (Z.to_nat (threads args)))),
      (actions tidy).
    unfold actions, completion in *. cbn [fst snd] in *.
    split; [rewrite <- app_assoc; reflexivity |].
    split.
    { rewrite forallb_app, (launch_neutral _ Hla), joins_neutral.
      reflexivity. }
    split; [rewrite started_app, started_joins, app_nil_r; exact Hst |].
    right. split; [reflexivity |].
    split; [eexists; reflexivity |].
    split; [reflexivity |].
    split; [reflexivity |].
    intros i Hi. apply in_or_app. right. apply in_map. exact Hi.
  - rewrite (bind_raises _ _ _ Hc).
    exists k, (actions (threading_logic args)), [].
    unfold actions, completion in *. cbn [fst snd] in *.
    split; [rewrite app_nil_r; reflexivity |].
    split; [exact (launch_neutral _ Hla) |].
    split; [exact Hst |].
    left. split; [reflexivity |].
    split; [exists e; split; reflexivity |].
    intros i. apply launch_no_join. exact Hla.
Qed.

Lemma fs_write_same (fs : filesystem) (n c : str) : fs_write fs n c n = Some c.
Proof.
  unfold fs_write. destruct (str_eq_dec n n); [reflexivity | contradiction].
Qed.

Lemma fs_remove_same (fs : filesystem) (n : str) : fs_remove fs n n = None.
Proof.
  unfold fs_remove. destruct (str_eq_dec n n); [reflexivity | contradiction].
Qed.

Lemma replay_build (args : Args) (fs0 : filesystem) :
  replay (actions (build args)) fs0 name = Some (json_dumps payload).
Proof.
  rewrite build_actions_eq. unfold replay. cbn [fold_left fs_effect].
  rewrite fs_write_same. cbn [app]. apply fs_write_same.
Qed.

Lemma replay_clean_up (fs : filesystem) :
  replay (actions tidy) fs name = None.
Proof.
  destruct clean_up_actions as (rest & -> & Hn & _).
  change (OsRemove name :: rest) with ([OsRemove name] ++ rest).
  rewrite replay_app, (replay_neutral _ _ Hn).
  unfold replay. cbn [fold_left fs_effect]. apply fs_remove_same.
Qed.

Lemma build_no_thread (args : Args) (a : action) :
  In a (actions (build args)) ->
  started [a] = [] /\ a <> OsRemove name /\ forall i, a <> ThreadJoin i.
Proof.
  rewrite build_actions_eq.
  intros [<- | [<- | [<- | [<- | [<- | [<- | [<- | []]]]]]]];
    (split; [reflexivity |]); split; try intros i; discriminate.
Qed.

Lemma clean_up_started : started (actions tidy) = [].
Proof. destruct clean_up_actions as (rest & -> & _ & Hs & _). exact Hs. Qed.

Lemma clean_up_no_thread (a : action) :
  In a (actions tidy) -> started [a] = [].
Proof.
  intros H. apply in_split in H as (l1 & l2 & H).
  pose proof clean_up_started as Hs.
  rewrite H, started_app in Hs. apply app_eq_nil in Hs as [_ Hs].
  change (a :: l2) with ([a] ++ l2) in Hs. rewrite started_app in Hs.
  apply app_eq_nil in Hs as [Hs _]. exact Hs.
Qed.

Lemma clean_up_no_join (i : Z) : ~ In (ThreadJoin i) (actions tidy).
Proof.
  destruct clean_up_actions as (rest & -> & _ & _ & Hj).
  intros [H | H]; [discriminate | exact (Hj i H)].
Qed.

Lemma clean_up_files : filter touches_files (actions tidy) = [OsRemove name].
Proof.
  destruct clean_up_actions as (rest & -> & Hn & _).
  cbn [filter touches_files]. f_equal. clear -Hn.
  induction rest as [| a l IH]; [reflexivity |].
  simpl in Hn |- *. apply andb_prop in Hn as [Ha Hl].
  destruct (touches_files a); [discriminate | exact (IH Hl)].
Qed.

Lemma main_started (args : Args) :
  exists k : nat, started (prog args) = range k /\
    ((exists ts, completion (threading_logic args) = Returned ts) ->
     k = Z.to_nat (threads args)).
Proof.
  destruct (main_shape args) as (k & mid & fin & Hprog & Hmid & Hst & Hfin).
  exists k. rewrite Hprog, !started_app, Hst.
  change (started (actions (build args))) with (@nil Z).
  destruct Hfin as [(-> & (e & He & _) & _) | (-> & _ & _ & -> & _)].
  - split; [apply app_nil_r |]. intros [ts Hts]. congruence.
  - split; [| reflexivity]. rewrite clean_up_started. apply app_nil_r.
Qed.

Lemma main_started_nodup (args : Args) : NoDup (started (prog args)).
Proof.
  destruct (main_started args) as (k & -> & _). apply range_NoDup.
Qed.

(** While a started worker has not been joined, the payload file holds
    the serialized payload. *)
Lemma snapshot_has_payload (args : Args) (fs0 : filesystem)
    (d1 d2 : list action) (i : Z) :
  prog args = d1 ++ d2 ->
  In i (started d1) ->
  ~ In (ThreadJoin i) d1 ->
  replay d1 fs0 name = Some (json_dumps payload).
Proof.
  intros Hsplit Hin Hnj.
  destruct (main_shape args) as (k & mid & fin & Hprog & Hmid & Hst & Hfin).
  rewrite Hsplit in Hprog. apply started_In in Hin.
  destruct (prefix_past _ _ _ _ _ Hprog Hin) as (m & -> & Hm & Him).
  { intros H. apply build_no_thread in H as [H _]. discriminate. }
  rewrite replay_app.
  assert (Hneutral : forallb (fun a => negb (touches_files a)) m = true).
  { symmetry in Hm. apply app_eq_app in Hm as [l [[Hm1 Hm2] | [Hm1 Hm2]]].
    - (* m = mid ++ l *)
      destruct Hfin as [(-> & _ & _) | (-> & _ & _ & _ & Hjoined)].
      + symmetry in Hm2. apply app_eq_nil in Hm2 as [-> _].
        rewrite app_nil_r in Hm1. subst m. exact Hmid.
      + exfalso. apply Hnj. apply in_or_app. right.
        subst m. apply in_or_app. left. apply Hjoined.
        rewrite <- Hst. apply started_In.
        apply in_app_or in Him as [Him | Him]; [exact Him |].
        exfalso.
        assert (Hs : In (ThreadStart i) (actions tidy)).
        { rewrite Hm2. apply in_or_app. left. exact Him. }
        apply clean_up_no_thread in Hs. discriminate.
    - (* mid = m ++ l *)
      eapply prefix_neutral; [symmetry; exact Hm1 | exact Hmid]. }
  rewrite (replay_neutral _ _ Hneutral). apply replay_build.
Qed.

(** Once the payload file has been removed, every worker has been
    started and joined. *)
Lemma removed_after_joins (args : Args) (d1 d2 : list action) :
  prog args = d1 ++ d2 ->
  In (OsRemove name) d1 ->
  started d1 = range (Z.to_nat (threads args)) /\
  (forall i, In i (range (Z.to_nat (threads args))) ->
             In (ThreadJoin i) d1).
Proof.
  intros Hsplit Hin.
  destruct (main_shape args) as (k & mid & fin & Hprog & Hmid & Hst & Hfin).
  rewrite Hsplit, app_assoc in Hprog.
  destruct (prefix_past _ _ _ _ _ Hprog Hin) as (m & -> & Hm & Him).
  { intros H. apply in_app_or in H as [H | H].
    - apply build_no_thread in H as (_ & H & _). apply H. reflexivity.
    - rewrite forallb_forall in Hmid. specialize (Hmid _ H). discriminate. }
  destruct Hfin as [(-> & _ & _) | (-> & _ & _ & -> & Hjoined)].
  - destruct m; [destruct Him | discriminate].
  - split.
    + rewrite !started_app, Hst.
      change (started (actions (build args))) with (@nil Z).
      pose proof clean_up_started as Hs.
      rewrite Hm, started_app in Hs. apply app_eq_nil in Hs as [-> _].
      apply app_nil_r.
    + intros i Hi. apply in_or_app. left. apply in_or_app. right.
      apply Hjoined. exact Hi.
Qed.

Lemma main_returns_removed (args : Args) (fs0 : filesystem) :
  completion (whole args) = Returned tt ->
  replay (prog args) fs0 name = None /\ In (OsRemove name) (prog args).
Proof.
  intros Hc.
  destruct (main_shape args) as (k & mid & fin & Hprog & Hmid & Hst & Hfin).
  destruct Hfin as [(_ & (e & _ & He) & _) | (-> & _ & _ & _ & _)];
    [rewrite He in Hc; discriminate |].
  rewrite Hprog. split.
  - rewrite !replay_app. apply replay_clean_up.
  - apply in_or_app. right. apply in_or_app. right.
    destruct clean_up_actions as (rest & -> & _). left. reflexivity.
Qed.


Lemma filter_neutral (l : list action) :
  forallb (fun a => negb (touches_files a)) l = true ->
  filter touches_files l = [].
Proof.
  induction l as [| a l IH]; [reflexivity |].
  simpl. intros H. apply andb_prop in H as [Ha Hl].
  destruct (touches_files a); [discriminate | exact (IH Hl)].
Qed.

(** The main thread touches the files three times at most: it creates the
    payload file, writes the payload, and removes the file if the loop
    has returned. *)
Lemma main_file_actions (args : Args) :
  filter touches_files (prog args) =
    [TempFileCreate name; FileWrite name (json_dumps payload)]
      ++ match completion (threading_logic args) with
         | Returned _ => [OsRemove name]
         | Raises _ => []
         end.
Proof.
  destruct (main_shape args) as (k & mid & fin & Hprog & Hmid & Hst & Hfin).
  rewrite Hprog, !filter_app, (filter_neutral _ Hmid).
  destruct Hfin as [(-> & (e & -> & _) & _) | (-> & (ts & ->) & _)];
    [reflexivity |].
  rewrite clean_up_files. reflexivity.
Qed.

Lemma main_joins_started (args : Args) : joins_started (prog args).
Proof.
  intros d i rest Hsplit.
  destruct (threading_loop_shape args (Z.to_nat (threads args)) 0 [])
    as (k & Hk & Hla & Hst & Hret).
  fold (threading_logic args) in Hla, Hst, Hret.
  assert (Hprog : exists fin,
    prog args = (actions (build args) ++ actions (threading_logic args))
                  ++ fin /\
    (fin = [] \/
     fin = map ThreadJoin (upfrom 0 k) ++ actions tidy)).
  { unfold main_program, main.
    rewrite (bind_returned _ _ tt) by reflexivity.
    destruct (completion (threading_logic args)) as [ts | e] eqn:Hc.
    - destruct (Hret ts eq_refl) as [-> ->]. simpl app.
      rewrite (bind_returned _ _ _ Hc).
      rewrite (bind_returned _ _ tt) by (rewrite join_all_eq; reflexivity).
      rewrite join_all_eq.
      exists (map ThreadJoin (upfrom 0 (Z.to_nat (threads args)))
                ++ actions tidy).
      split; [| right; reflexivity].
      unfold actions. cbn [fst]. reflexivity.
    - rewrite (bind_raises _ _ _ Hc).
      exists []. split; [| left; reflexivity].
      unfold actions. cbn [fst]. rewrite !app_nil_r. reflexivity. }
  destruct Hprog as (fin & Hprog & Hfin).
  rewrite Hsplit in Hprog.
  change (d ++ ThreadJoin i :: rest) with (d ++ [ThreadJoin i] ++ rest)
    in Hprog.
  rewrite app_assoc in Hprog.
  destruct (prefix_past (ThreadJoin i) _ _ _ _ Hprog) as (m & Hd & Hm & Him).
  { apply in_or_app. right. left. reflexivity. }
  { intros H. apply in_app_or in H as [H | H].
    - apply build_no_thread in H as (_ & _ & H). apply (H i). reflexivity.
    - apply (launch_no_join _ i Hla). exact H. }
  assert (Hne : m <> []) by (intros ->; destruct Him).
  destruct (exists_last Hne) as (m' & y & ->).
  rewrite app_assoc in Hd. apply app_inj_tail in Hd as [-> _].
  rewrite !started_app, Hst.
  apply in_or_app. left. apply in_or_app. right.
  destruct Hfin as [-> | ->].
  { symmetry in Hm. apply app_eq_nil in Hm as [Hm _].
    apply app_eq_nil in Hm as [_ Hm]. discriminate. }
  assert (Hj : In (ThreadJoin i)
                 (map ThreadJoin (upfrom 0 k) ++ actions tidy)).
  { rewrite Hm. apply in_or_app. left. exact Him. }
  apply in_app_or in Hj as [Hj | Hj].
  - apply in_map_iff in Hj as (j & Hj & Hin). inversion Hj; subst. exact Hin.
  - exfalso. exact (clean_up_no_join i Hj).
Qed.

End MainShape.

(** ** Counting outcomes *)

Lemma recorded_app (l1 l2 : list action) :
  recorded (l1 ++ l2) = recorded l1 ++ recorded l2.
Proof.
  induction l1 as [| a l1 IH]; [reflexivity |].
  simpl. destruct (outcome_of_action a); simpl; rewrite IH; reflexivity.
Qed.

Lemma recorded_cons_length (a : action) (l : list action) :
  List.length (recorded (a :: l)) =
    (List.length (recorded [a]) + List.length (recorded l))%nat.
Proof.
  change (a :: l) with ([a] ++ l).
  rewrite recorded_app, length_app. reflexivity.
Qed.

Lemma sum_single (j : Z) (x : nat) (f : Z -> nat) (ids : list Z) :
  NoDup ids -> In j ids ->
  list_sum (map (fun i => ((if (j =? i)%Z then x else 0) + f i)%nat) ids) =
    (x + list_sum (map f ids))%nat.
Proof.
  induction ids as [| i ids IH]; intros Hnd Hin; [destruct Hin |].
  inversion Hnd as [| ? ? Hnotin Hnd']; subst. simpl.
  destruct Hin as [-> | Hin].
  - rewrite Z.eqb_refl.
    assert (H0 : list_sum (map (fun i => ((if (j =? i)%Z then x else 0) + f i)%nat)
                         ids) = list_sum (map f ids)).
    { f_equal. apply map_ext_in. intros i Hi.
      destruct (Z.eqb_spec j i) as [-> | _]; [contradiction | reflexivity]. }
    rewrite H0. lia.
  - destruct (Z.eqb_spec j i) as [-> | _]; [contradiction |].
    rewrite (IH Hnd' Hin). lia.
Qed.

Lemma recorded_count (l : list event) (ids : list Z) :
  NoDup ids ->
  (forall i, ~ In i ids -> worker_log i l = []) ->
  List.length (recorded (workers_log l)) =
    list_sum (map (fun i => List.length (recorded (worker_log i l))) ids).
Proof.
  intros Hnd. induction l as [| [a | j a fs] l IH]; intros Hout.
  - simpl. induction ids as [| i ids IHids]; [reflexivity |].
    inversion Hnd; subst. simpl. apply IHids; [assumption |].
    intros; reflexivity.
  - simpl. apply IH. exact Hout.
  - assert (Hj : In j ids).
    { destruct (in_dec Z.eq_dec j ids) as [H | H]; [exact H |].
      specialize (Hout j H). simpl in Hout. rewrite Z.eqb_refl in Hout.
      discriminate. }
    assert (Hout' : forall i, ~ In i ids -> worker_log i l = []).
    { intros i Hi. specialize (Hout i Hi). simpl in Hout.
      destruct (j =? i); [discriminate | exact Hout]. }
    cbn [workers_log]. rewrite recorded_cons_length, (IH Hout').
    rewrite <- (sum_single j _ _ ids Hnd Hj).
    f_equal. apply map_ext. intros i. cbn [worker_log].
    destruct (j =? i); [symmetry; apply recorded_cons_length | reflexivity].
Qed.

Lemma list_sum_ones {A} (f : A -> nat) (l : list A) :
  (forall x, In x l -> f x = 1%nat) -> list_sum (map f l) = List.length l.
Proof.
  induction l as [| x l IH]; intros H; [reflexivity |].
  simpl. rewrite (H x (or_introl eq_refl)), IH; [reflexivity |].
  intros y Hy. apply H. right. exact Hy.
Qed.

Lemma main_log_In (a : action) (l : list event) :
  In (MainDid a) l <-> In a (main_log l).
Proof.
  induction l as [| [b | j b fs] l IH]; simpl; [tauto | |].
  - rewrite <- IH. split; (intros [H | H]; [left; congruence | right; exact H]).
  - rewrite <- IH. split; [intros [H | H]; [discriminate | exact H] | auto].
Qed.

Lemma worker_log_In (i : Z) (a : action) (fs : filesystem) (l : list event) :
  In (WorkerDid i a fs) l -> In a (worker_log i l).
Proof.
  induction l as [| [b | j b fs'] l IH]; simpl; [tauto | |].
  - intros [H | H]; [discriminate | exact (IH H)].
  - intros [H | H].
    + inversion H; subst. rewrite Z.eqb_refl. left. reflexivity.
    + destruct (j =? i); [right |]; exact (IH H).
Qed.

Lemma worker_log_In_inv (i : Z) (a : action) (l : list event) :
  In a (worker_log i l) -> exists fs, In (WorkerDid i a fs) l.
Proof.
  induction l as [| [b | j b fs'] l IH]; simpl; [tauto | |].
  - intros H. destruct (IH H) as [fs Hfs]. exists fs. right. exact Hfs.
  - destruct (Z.eqb_spec j i) as [-> | Hne].
    + intros [H | H].
      * subst b. exists fs'. left. reflexivity.
      * destruct (IH H) as [fs Hfs]. exists fs. right. exact Hfs.
    + intros H. destruct (IH H) as [fs Hfs]. exists fs. right. exact Hfs.
Qed.

(** ** Consequences of the invariant *)

Section Consequences.

Variable target : Z -> list action.
Variable prog : list action.
Variable fs0 : filesystem.

Hypothesis started_nodup : NoDup (started prog).

Lemma pool_nodup (c : config) :
  invariant target prog fs0 c -> NoDup (map fst (pool c)).
Proof.
  intros (Hprog & _ & Hpool & _).
  rewrite Hpool. rewrite Hprog, started_app in started_nodup.
  apply NoDup_app_remove_r in started_nodup. exact started_nodup.
Qed.

(** A joined thread has taken all its actions. *)
Lemma joined_finished (c : config) (i : Z) (todo : list action) :
  invariant target prog fs0 c ->
  In (i, todo) (pool c) ->
  In (ThreadJoin i) (main_log (log c)) ->
  todo = [] /\ worker_log i (log c) = target i.
Proof.
  intros Hinv Hin Hj. pose proof (pool_nodup c Hinv) as Hnd.
  destruct Hinv as (_ & _ & _ & Hjoin & Hthreads & _).
  apply In_nth_error in Hin as [k Hk].
  apply Hjoin in Hj. unfold thread_finished in Hj.
  rewrite (find_nodup _ _ _ _ Hnd Hk) in Hj.
  destruct todo; [| discriminate].
  split; [reflexivity |].
  rewrite Forall_forall in Hthreads.
  specialize (Hthreads (i, []) (nth_error_In _ _ Hk)).
  cbn [fst snd] in Hthreads. rewrite app_nil_r in Hthreads.
  symmetry. exact Hthreads.
Qed.

(** Every action in the log of a worker is an action of its target. *)
Lemma worker_event_of_target (c : config) (i : Z) (a : action)
    (fs : filesystem) :
  invariant target prog fs0 c ->
  In (WorkerDid i a fs) (log c) ->
  In a (target i).
Proof.
  intros (_ & _ & Hpool & _ & Hthreads & Hfresh & _) Hin.
  apply worker_log_In in Hin.
  destruct (in_dec Z.eq_dec i (started (main_log (log c)))) as [Hs | Hs].
  - rewrite <- Hpool in Hs. apply in_map_iff in Hs as ([j todo] & Hj & Ht).
    simpl in Hj. subst j.
    rewrite Forall_forall in Hthreads. specialize (Hthreads _ Ht).
    cbn [fst snd] in Hthreads. rewrite Hthreads.
    apply in_or_app. left. exact Hin.
  - rewrite (Hfresh i Hs) in Hin. destruct Hin.
Qed.

End Consequences.

(** ** Progress *)

Section Progress.

Variable target : Z -> list action.
Variable prog : list action.
Variable fs0 : filesystem.

Hypothesis target_neutral :
  forall i, forallb (fun a => negb (touches_files a)) (target i) = true.
Hypothesis started_nodup : NoDup (started prog).
Hypothesis prog_joins_started : joins_started prog.

Local Abbreviation inv := (invariant target prog fs0).

Lemma update_sum (p : list (Z * list action)) (k : nat) (i : Z)
    (a : action) (rest : list action) :
  nth_error p k = Some (i, a :: rest) ->
  S (list_sum (map (fun t => List.length (snd t)) (update k (i, rest) p))) =
    list_sum (map (fun t => List.length (snd t)) p).
Proof.
  revert k. induction p as [| [j tj] p IH]; intros k Hk.
  - destruct k; discriminate.
  - destruct k as [| k]; cbn [nth_error] in Hk.
    + inversion Hk; subst. reflexivity.
    + specialize (IH k Hk). simpl in *. lia.
Qed.

Lemma step_decreases (p : pick) (c c' : config) :
  step target p c = Some c' ->
  S (remaining target c') = remaining target c.
Proof.
  unfold remaining. destruct p as [| k]; cbn [step].
  - unfold main_step. destruct (main_todo c) as [| a rest]; [discriminate |].
    destruct a;
      try (intros H; inversion H; subst c'; reflexivity).
    + intros H; inversion H; subst c'. cbn [main_todo pool].
      rewrite map_app, list_sum_app. simpl. lia.
    + destruct (thread_finished (pool c) i); [| discriminate].
      intros H; inversion H; subst c'. reflexivity.
  - unfold thread_step.
    destruct (nth_error (pool c) k) as [[i [| a rest]] |] eqn:Hk;
      try discriminate.
    intros H; inversion H; subst c'. cbn [main_todo pool].
    rewrite <- (update_sum _ _ _ _ _ Hk). lia.
Qed.

Lemma unfinished_can_step (p : list (Z * list action)) (i : Z) :
  In i (map fst p) ->
  thread_finished p i = false ->
  exists k a rest, nth_error p k = Some (i, a :: rest).
Proof.
  unfold thread_finished.
  induction p as [| [j tj] p IH]; intros Hin Hf; [destruct Hin |].
  simpl in Hf. destruct (Z.eqb_spec j i) as [-> | Hne].
  - destruct tj as [| a rest]; [discriminate |].
    exists 0%nat, a, rest. reflexivity.
  - destruct Hin as [Hin | Hin]; [simpl in Hin; contradiction |].
    destruct (IH Hin Hf) as (k & a & rest & Hk).
    exists (S k), a, rest. exact Hk.
Qed.

(** While the main thread has an action left, some thread can move. *)
Lemma progress (c : config) :
  inv c -> main_todo c <> [] ->
  exists p c', step target p c = Some c'.
Proof.
  intros (Hprog & _ & Hpool & _) Hne.
  destruct (main_todo c) as [| a rest] eqn:Htodo; [contradiction |].
  destruct a;
    try (exists Main; cbn [step]; unfold main_step; rewrite Htodo;
         eexists; reflexivity).
  destruct (thread_finished (pool c) i) eqn:Hfin.
  - exists Main. cbn [step]. unfold main_step. rewrite Htodo, Hfin.
    eexists. reflexivity.
  - destruct (unfinished_can_step (pool c) i) as (k & a & r & Hk);
      [| exact Hfin |].
    + rewrite Hpool. eapply prog_joins_started. exact Hprog.
    + exists (Thread k). cbn [step]. unfold thread_step. rewrite Hk.
      eexists. reflexivity.
Qed.

Lemma exec_app (s1 s2 : list pick) (c : config) :
  exec target (s1 ++ s2) c =
    match exec target s1 c with
    | Some c' => exec target s2 c'
    | None => None
    end.
Proof.
  revert c. induction s1 as [| p s1 IH]; intros c; [reflexivity |].
  simpl. destruct (step target p c); [apply IH | reflexivity].
Qed.

(** From a state that satisfies the invariant, the main thread can be
    brought to its end. *)
Lemma can_complete (m : nat) :
  forall c, remaining target c = m -> inv c ->
    exists sched c', exec target sched c = Some c' /\ main_todo c' = [].
Proof.
  induction m as [| m IH]; intros c Hm Hinv.
  - exists [], c. split; [reflexivity |].
    unfold remaining in Hm. destruct (main_todo c) as [| a rest];
      [reflexivity |].
    exfalso. cbn [map list_sum] in Hm. destruct a; simpl in Hm; lia.
  - destruct (main_todo c) as [| a rest] eqn:Htodo.
    + exists [], c. split; [reflexivity | exact Htodo].
    + destruct (progress c Hinv) as (p & c1 & Hstep);
        [rewrite Htodo; discriminate |].
      pose proof (step_decreases _ _ _ Hstep) as Hdec.
      destruct (IH c1) as (sched & c' & Hexec & Hend).
      * lia.
      * eapply invariant_step; eassumption.
      * exists (p :: sched), c'. split; [| exact Hend].
        simpl. rewrite Hstep. exact Hexec.
Qed.

End Progress.

(** ** The run *)

Section Run.

Variable subprocess_run : Z -> list str -> result CompletedProcess.
Variable json_loads : str -> result pyvalue.
Variable json_dumps : pyvalue -> str.
Variable json_dumps_indent2 : pyvalue -> result str.
Variable stdin_input : str -> result str.
Variable temp_payload_file_name : str.

Local Abbreviation name := temp_payload_file_name.
Local Abbreviation target :=
  (worker_target subprocess_run json_loads json_dumps_indent2 name).
Local Abbreviation prog := (main_program json_dumps stdin_input name).
Local Abbreviation whole := (main json_dumps stdin_input name).
Local Abbreviation tidy := (clean_up stdin_input name).
Local Abbreviation run_of :=
  (runs subprocess_run json_loads json_dumps json_dumps_indent2 stdin_input
     name).
Local Abbreviation report :=
  (report_line subprocess_run json_loads json_dumps_indent2 name).

Lemma worker_target_eq (args : Args) (i : Z) :
  target args i =
    [ Print (StartingRequest i);
      SubprocessRun (curl_command name args);
      Print (report args i) ].
Proof. unfold worker_target. rewrite make_request_eq. reflexivity. Qed.

Lemma worker_neutral (args : Args) (i : Z) :
  forallb (fun a => negb (touches_files a)) (target args i) = true.
Proof. rewrite worker_target_eq. reflexivity. Qed.

Lemma report_is_outcome (args : Args) (i : Z) :
  exists o, outcome_of_line (report args i) = Some o.
Proof.
  unfold report_line.
  destruct (subprocess_run i (curl_command name args)) as [cp | e];
    [| eexists; reflexivity].
  destruct (returncode cp =? 0); [| eexists; reflexivity].
  destruct (reserialize json_loads json_dumps_indent2 (stdout cp))
    as [text | e]; [eexists; reflexivity |].
  destruct (is_JSONDecodeError (exn_cls e)); eexists; reflexivity.
Qed.

Lemma worker_records_one (args : Args) (i : Z) :
  exists o, recorded (target args i) = [o].
Proof.
  rewrite worker_target_eq. destruct (report_is_outcome args i) as [o Ho].
  exists o. cbn [recorded outcome_of_action]. rewrite Ho. reflexivity.
Qed.

Lemma run_invariant (args : Args) (fs0 : filesystem) (sched : list pick)
    (c : config) :
  run_of args fs0 sched = Some c ->
  invariant (target args) (prog args) fs0 c.
Proof.
  apply invariant_reachable.
  - apply worker_neutral.
  - apply main_started_nodup.
Qed.

(** From any state of a run, the main thread can be brought to its end:
    no join waits for ever. *)
Lemma run_can_complete (args : Args) (fs0 : filesystem)
    (sched : list pick) (c : config) :
  run_of args fs0 sched = Some c ->
  exists sched' c',
    run_of args fs0 (sched ++ sched') = Some c' /\ main_todo c' = [].
Proof.
  intros Hrun. pose proof (run_invariant _ _ _ _ Hrun) as Hinv.
  destruct (can_complete (target args) (prog args) fs0
              (worker_neutral args) (main_started_nodup _ _ _ args)
              (main_joins_started _ _ _ args)
              (remaining (target args) c) c eq_refl Hinv)
    as (sched' & c' & Hexec & Hend).
  exists sched', c'. split; [| exact Hend].
  unfold runs in *. rewrite exec_app, Hrun. exact Hexec.
Qed.


(** C5. Whatever the thread count, the main thread writes the payload
    file once, before the loop, and touches the files again only to
    remove that file, once the loop has returned; a worker does not touch
    the files and runs one command, the same for all, whose last argument
    names that file; every action of a worker is taken while the file
    holds the serialized payload; and every worker that is past its
    command has run it while the file held the serialized payload. *)
Theorem payload_shared (args : Args) (fs0 : filesystem)
    (sched : list pick) (c : config) :
  run_of args fs0 sched = Some c ->
  filter touches_files (prog args) =
    [TempFileCreate name; FileWrite name (json_dumps payload)]
      ++ match completion (threading_logic args) with
         | Returned _ => [OsRemove name]
         | Raises _ => []
         end /\
  (forall i,
      filter touches_files (target args i) = [] /\
      filter is_request (target args i) =
        [SubprocessRun (curl_command name args)]) /\
  last (curl_command name args) [] = lit "-d@" ++ name /\
  (forall i a fs,
      In (WorkerDid i a fs) (log c) ->
      fs name = Some (json_dumps payload)) /\
  (forall i todo,
      In (i, todo) (pool c) ->
      ~ In (SubprocessRun (curl_command name args)) todo ->
      exists fs,
        In (WorkerDid i (SubprocessRun (curl_command name args)) fs)
          (log c) /\
        fs name = Some (json_dumps payload)).
Proof.
  intros Hrun. pose proof (run_invariant _ _ _ _ Hrun) as Hinv.
  assert (Hsnap : forall i a fs,
    In (WorkerDid i a fs) (log c) -> fs name = Some (json_dumps payload)).
  { intros i a fs Hin.
    destruct Hinv as (_ & _ & _ & _ & _ & _ & Hsnap).
    rewrite Forall_forall in Hsnap. specialize (Hsnap _ Hin).
    destruct Hsnap as (d1 & d2 & Hsplit & Hs & Hnj & ->).
    eapply snapshot_has_payload; eassumption. }
  split; [apply main_file_actions |].
  split.
  { intros i. split; [apply filter_neutral, worker_neutral |].
    rewrite worker_target_eq. reflexivity. }
  split; [reflexivity |].
  split; [exact Hsnap |].
  intros i todo Hin Hpast.
  destruct Hinv as (_ & _ & _ & _ & Hthreads & _).
  rewrite Forall_forall in Hthreads. specialize (Hthreads _ Hin).
  cbn [fst snd] in Hthreads.
  assert (Hrequest : In (SubprocessRun (curl_command name args))
                       (worker_log i (log c) ++ todo)).
  { rewrite <- Hthreads, worker_target_eq. right. left. reflexivity. }
  apply in_app_or in Hrequest as [Hrequest | Hrequest];
    [| contradiction].
  apply worker_log_In_inv in Hrequest as [fs Hfs].
  exists fs. split; [exact Hfs |]. eapply Hsnap. exact Hfs.
Qed.

(** C6. While a started worker still has an action to take, the payload
    file holds the payload; once the main thread has removed the file,
    all the workers 0 .. N-1 have been started and have taken all their
    actions; when the main thread returns, having taken all its
    actions, the file is removed; and the main thread can always be
    brought to the end of its actions. *)
Theorem payload_removed_after_workers (args : Args) (fs0 : filesystem)
    (sched : list pick) (c : config) :
  run_of args fs0 sched = Some c ->
  (forall i todo, In (i, todo) (pool c) -> todo <> [] ->
     files c name = Some (json_dumps payload) /\
     ~ In (MainDid (OsRemove name)) (log c)) /\
  (In (MainDid (OsRemove name)) (log c) ->
     map fst (pool c) = range (Z.to_nat (threads args)) /\
     (forall i, In i (range (Z.to_nat (threads args))) ->
                In (MainDid (ThreadJoin i)) (log c)) /\
     Forall (fun t => snd t = [] /\
                      worker_log (fst t) (log c) = target args (fst t))
       (pool c)) /\
  (completion (whole args) = Returned tt ->
   main_todo c = [] ->
   files c name = None /\ In (MainDid (OsRemove name)) (log c)) /\
  (exists sched' c',
      run_of args fs0 (sched ++ sched') = Some c' /\ main_todo c' = []).
Proof.
  intros Hrun. pose proof (run_invariant _ _ _ _ Hrun) as Hinv.
  pose proof Hinv as (Hprog & Hfiles & Hpool & Hjoin & _).
  assert (Hremoved : In (MainDid (OsRemove name)) (log c) ->
    map fst (pool c) = range (Z.to_nat (threads args)) /\
    (forall i, In i (range (Z.to_nat (threads args))) ->
               In (MainDid (ThreadJoin i)) (log c)) /\
    Forall (fun t => snd t = [] /\
                     worker_log (fst t) (log c) = target args (fst t))
      (pool c)).
  { intros Hrm. apply main_log_In in Hrm.
    destruct (removed_after_joins _ _ _ _ _ _ Hprog Hrm) as [Hst Hjoined].
    split; [rewrite Hpool; exact Hst |].
    split; [intros i Hi; apply main_log_In, Hjoined; exact Hi |].
    apply Forall_forall. intros [i todo] Hin. cbn [fst snd].
    eapply joined_finished; eauto using main_started_nodup.
    apply Hjoined. rewrite <- Hst, <- Hpool.
    apply (in_map fst) in Hin. exact Hin. }
  split.
  { intros i todo Hin Htodo.
    assert (Hnj : ~ In (ThreadJoin i) (main_log (log c))).
    { intros Hj.
      destruct (joined_finished _ _ _ (main_started_nodup _ _ _ args)
                  c i todo Hinv Hin Hj) as [-> _].
      apply Htodo. reflexivity. }
    split.
    - rewrite Hfiles.
      eapply snapshot_has_payload; [exact Hprog | | exact Hnj].
      rewrite <- Hpool. apply (in_map fst) in Hin. exact Hin.
    - intros Hrm. destruct (Hremoved Hrm) as (_ & _ & Hall).
      rewrite Forall_forall in Hall.
      destruct (Hall _ Hin) as [Hnil _]. apply Htodo. exact Hnil. }
  split; [exact Hremoved |].
  split; [| eapply run_can_complete; exact Hrun].
  intros Hc Hdone. rewrite Hdone, app_nil_r in Hprog.
  destruct (main_returns_removed json_dumps stdin_input name args fs0 Hc)
    as [Hnone Hrm].
  split.
  - rewrite Hfiles, <- Hprog. exact Hnone.
  - apply main_log_In. rewrite <- Hprog. exact Hrm.
Qed.


End Run.

(** ** A worker's outcome does not reach the other threads *)

Section Isolation.

Variables target1 target2 : Z -> list action.

Hypothesis same_length :
  forall i, List.length (target1 i) = List.length (target2 i).
Hypothesis neutral1 :
  forall i, forallb (fun a => negb (touches_files a)) (target1 i) = true.
Hypothesis neutral2 :
  forall i, forallb (fun a => negb (touches_files a)) (target2 i) = true.

Local Abbreviation R := (same_progress target1 target2).

Lemma sim_finished (p1 p2 : list (Z * list action)) (i : Z) :
  Forall2 R p1 p2 -> thread_finished p1 i = thread_finished p2 i.
Proof.
  unfold thread_finished.
  induction 1 as [| [j1 t1] [j2 t2] p1 p2 (Hid & Hlen & _) _ IH];
    [reflexivity |].
  cbn [fst snd] in *. subst j2. simpl.
  destruct (j1 =? i); [| exact IH].
  destruct t1, t2; (reflexivity || discriminate).
Qed.

Lemma sim_pool_step (p1 p2 : list (Z * list action)) (k : nat) (i : Z)
    (a1 : action) (r1 : list action) :
  Forall2 R p1 p2 ->
  nth_error p1 k = Some (i, a1 :: r1) ->
  exists a2 r2,
    nth_error p2 k = Some (i, a2 :: r2) /\
    Forall2 R (update k (i, r1) p1) (update k (i, r2) p2) /\
    touches_files a1 = false /\ touches_files a2 = false /\
    (target1 i = target2 i -> a1 = a2).
Proof.
  intros H. revert k.
  induction H as [| [j1 t1] [j2 t2] p1 p2 HR Hrest IH]; intros k Hk.
  - destruct k; discriminate.
  - destruct k as [| k]; cbn [nth_error] in Hk.
    + inversion Hk; subst.
      destruct HR as (Hid & Hlen & Hn1 & Hn2 & Heq).
      cbn [fst snd] in *. subst j2.
      destruct t2 as [| a2 r2]; [discriminate |].
      cbn [forallb] in Hn1, Hn2.
      apply andb_prop in Hn1 as [Ha1 Hr1].
      apply andb_prop in Hn2 as [Ha2 Hr2].
      exists a2, r2. split; [reflexivity |].
      split.
      { cbn [update]. constructor; [| exact Hrest].
        repeat split; cbn [fst snd]; try assumption.
        - simpl in Hlen. lia.
        - intros Ht. specialize (Heq Ht). inversion Heq. reflexivity. }
      split; [destruct (touches_files a1); [discriminate | reflexivity] |].
      split; [destruct (touches_files a2); [discriminate | reflexivity] |].
      intros Ht. specialize (Heq Ht). inversion Heq. reflexivity.
    + destruct (IH k Hk) as (a2 & r2 & Hk2 & Hup & Hrest').
      exists a2, r2. split; [exact Hk2 |].
      split; [| exact Hrest'].
      cbn [update]. constructor; assumption.
Qed.

Lemma sim_step (p : pick) (c1 c2 c1' : config) :
  sim target1 target2 c1 c2 ->
  step target1 p c1 = Some c1' ->
  exists c2', step target2 p c2 = Some c2' /\ sim target1 target2 c1' c2'.
Proof.
  intros (Htodo & Hfiles & Hmain & Hpool & Hlogs) Hstep.
  destruct p as [| k]; cbn [step] in *.
  - unfold main_step in *. rewrite <- Htodo.
    destruct (main_todo c1) as [| a rest]; [discriminate |].
    assert (Hlog' : forall l1 l2 b,
      main_log l1 = main_log l2 ->
      (forall i, target1 i = target2 i ->
                 worker_log i l1 = worker_log i l2) ->
      main_log (l1 ++ [MainDid b]) = main_log (l2 ++ [MainDid b]) /\
      (forall i, target1 i = target2 i ->
         worker_log i (l1 ++ [MainDid b]) =
           worker_log i (l2 ++ [MainDid b]))).
    { intros l1 l2 b Hm Hw. split.
      - rewrite !main_log_app, Hm. reflexivity.
      - intros i Hi. rewrite !worker_log_app, (Hw i Hi). reflexivity. }
    destruct (Hlog' _ _ a Hmain Hlogs) as [Hm' Hw'].
    destruct a;
      try (inversion Hstep; subst c1'; eexists; split; [reflexivity |];
           repeat split; cbn [main_todo files pool log];
           try assumption; rewrite Hfiles; reflexivity).
    + (* ThreadStart *)
      inversion Hstep; subst c1'. eexists. split; [reflexivity |].
      repeat split; cbn [main_todo files pool log]; try assumption.
      apply Forall2_app; [exact Hpool |].
      constructor; [| constructor].
      repeat split; cbn [fst snd]; auto.
    + (* ThreadJoin *)
      rewrite <- (sim_finished _ _ i Hpool).
      destruct (thread_finished (pool c1) i); [| discriminate].
      inversion Hstep; subst c1'. eexists. split; [reflexivity |].
      repeat split; cbn [main_todo files pool log]; assumption.
  - unfold thread_step in *.
    destruct (nth_error (pool c1) k) as [[i [| a1 r1]] |] eqn:Hk;
      try discriminate.
    inversion Hstep; subst c1'; clear Hstep.
    destruct (sim_pool_step _ _ _ _ _ _ Hpool Hk)
      as (a2 & r2 & Hk2 & Hup & Ha1 & Ha2 & Ha).
    rewrite Hk2. eexists. split; [reflexivity |].
    repeat split; cbn [main_todo files pool log]; try assumption.
    + rewrite !fs_effect_neutral by assumption. exact Hfiles.
    + rewrite !main_log_app, Hmain. reflexivity.
    + intros j Hj. rewrite !worker_log_app, (Hlogs j Hj).
      cbn [worker_log]. destruct (Z.eqb_spec i j) as [-> | _];
        [rewrite (Ha Hj) |]; reflexivity.
Qed.

Lemma sim_exec (sched : list pick) (c1 c2 c1' : config) :
  sim target1 target2 c1 c2 ->
  exec target1 sched c1 = Some c1' ->
  exists c2', exec target2 sched c2 = Some c2' /\ sim target1 target2 c1' c2'.
Proof.
  revert c1 c2. induction sched as [| p sched IH]; intros c1 c2 Hsim Hexec.
  - simpl in Hexec. inversion Hexec; subst. exists c2. split; [reflexivity |].
    exact Hsim.
  - simpl in Hexec.
    destruct (step target1 p c1) as [c1m |] eqn:Hstep; [| discriminate].
    destruct (sim_step _ _ _ _ Hsim Hstep) as (c2m & Hstep2 & Hsim').
    simpl. rewrite Hstep2. eapply IH; eassumption.
Qed.

Lemma sim_boot (prog : list action) (fs0 : filesystem) :
  sim target1 target2 (boot prog fs0) (boot prog fs0).
Proof. repeat split; constructor. Qed.

End Isolation.

Section Faults.

Variables subprocess_run subprocess_run' :
  Z -> list str -> result CompletedProcess.
Variable json_loads : str -> result pyvalue.
Variable json_dumps : pyvalue -> str.
Variable json_dumps_indent2 : pyvalue -> result str.
Variable stdin_input : str -> result str.
Variable temp_payload_file_name : str.

Local Abbreviation name := temp_payload_file_name.
Local Abbreviation body :=
  (request_body subprocess_run json_loads json_dumps_indent2 name).
Local Abbreviation worker :=
  (make_request subprocess_run json_loads json_dumps_indent2 name).
Local Abbreviation run_of :=
  (runs subprocess_run json_loads json_dumps json_dumps_indent2 stdin_input
     name).
Local Abbreviation run_of' :=
  (runs subprocess_run' json_loads json_dumps json_dumps_indent2 stdin_input
     name).

(** C2. [make_request] always returns and records exactly one outcome;
    when the body of its [try] raises [e], that outcome is RuntimeFault
    with [str(e)]. Whatever [subprocess.run] does in the workers, and
    whether it raises or not, a schedule that can be followed still can,
    and it leaves the main thread with the same actions taken and left,
    the same files, and a worker whose [subprocess.run] does the same
    with the same actions taken. *)
Theorem worker_faults_contained (args : Args) :
  (forall i, completion (worker args i) = Returned tt) /\
  (forall i, exists o, recorded (actions (worker args i)) = [o]) /\
  (forall i e,
      completion (body args i) = Raises e ->
      recorded (actions (worker args i)) = [RuntimeFault (exn_msg e)]) /\
  (forall fs0 sched c,
      run_of args fs0 sched = Some c ->
      exists c',
        run_of' args fs0 sched = Some c' /\
        main_todo c' = main_todo c /\
        main_log (log c') = main_log (log c) /\
        files c' = files c /\
        map fst (pool c') = map fst (pool c) /\
        (forall i,
            subprocess_run' i (curl_command name args) =
              subprocess_run i (curl_command name args) ->
            worker_log i (log c') = worker_log i (log c))).
Proof.
  split; [intros i; rewrite make_request_eq; reflexivity |].
  split.
  { intros i. rewrite recorded_make_request.
    destruct (report_is_outcome subprocess_run json_loads
                json_dumps_indent2 name args i) as [o ->].
    exists o. reflexivity. }
  split.
  { intros i e He. apply request_body_raises in He.
    rewrite recorded_make_request, He. reflexivity. }
  intros fs0 sched c Hrun.
  destruct (sim_exec
              (worker_target subprocess_run json_loads json_dumps_indent2
                 name args)
              (worker_target subprocess_run' json_loads json_dumps_indent2
                 name args)) with (sched := sched)
    (c1 := boot (main_program json_dumps stdin_input name args) fs0)
    (c2 := boot (main_program json_dumps stdin_input name args) fs0)
    (c1' := c)
    as (c' & Hrun' & Htodo & Hfiles & Hmain & Hpool & Hlogs).
  - intros i. rewrite !worker_target_eq. reflexivity.
  - apply worker_neutral.
  - apply worker_neutral.
  - apply sim_boot.
  - exact Hrun.
  - exists c'. split; [exact Hrun' |].
    split; [symmetry; exact Htodo |].
    split; [symmetry; exact Hmain |].
    split; [symmetry; exact Hfiles |].
    split.
    { clear -Hpool. induction Hpool as [| t1 t2 p1 p2 (Hid & _) _ IH];
        [reflexivity |].
      simpl. rewrite Hid, IH. reflexivity. }
    intros i Hi. symmetry. apply Hlogs.
    rewrite !worker_target_eq. unfold report_line. rewrite Hi. reflexivity.
Qed.

End Faults.

(** * More properties of the program *)

(** ** The endpoint *)

Lemma rstrip_repeat (c : char) (s : str) (k : nat) :
  rstrip c (s ++ repeat c k) = rstrip c s.
Proof.
  unfold rstrip. f_equal. rewrite rev_app_distr.
  assert (Hrev : rev (repeat c k) = repeat c k).
  { induction k as [| k IH]; [reflexivity |].
    simpl. rewrite IH. clear IH.
    induction k as [| k IH]; [reflexivity |].
    simpl. rewrite IH. reflexivity. }
  rewrite Hrev. clear Hrev.
  induction k as [| k IH]; [reflexivity |].
  simpl. rewrite N.eqb_refl. exact IH.
Qed.

Lemma rstrip_last (c : char) (s : str) :
  rstrip c s = [] \/ exists s' x, rstrip c s = s' ++ [x] /\ x <> c.
Proof.
  unfold rstrip. generalize (rev s) as l. clear s.
  induction l as [| x l IH]; [left; reflexivity |].
  destruct (N.eqb_spec x c) as [-> | Hne].
  - exact IH.
  - right. exists (rev l), x. split; [reflexivity | exact Hne].
Qed.

Lemma rstrip_split (c : char) (s : str) :
  exists rest : nat, s = rstrip c s ++ repeat c rest.
Proof.
  unfold rstrip.
  assert (H : forall l : str, exists rest : nat,
    rev l =
      rev ((fix drop (l : str) : str :=
              match l with
              | x :: l' => if N.eqb x c then drop l' else l
              | [] => []
              end) l) ++ repeat c rest).
  { induction l as [| x l IH]; [exists 0%nat; reflexivity |].
    destruct (N.eqb_spec x c) as [-> | Hne].
    - destruct IH as [rest IH]. exists (S rest).
      cbn [rev]. rewrite IH, <- app_assoc. f_equal.
      clear. induction rest as [| r IH]; [reflexivity |].
      simpl. f_equal. exact IH.
    - exists 0%nat. rewrite app_nil_r. reflexivity. }
  destruct (H (rev s)) as [rest Hrest].
  rewrite rev_involutive in Hrest. exists rest. exact Hrest.
Qed.

(** X1. The endpoint does not depend on the slashes that end [--domain]:
    it is a stem that does not end with a slash, followed by
    [/api/graphql]. *)
Theorem endpoint_ignores_trailing_slashes (args : Args) (k : nat) :
  GRAPHQL_ENDPOINT (with_domain args (domain args ++ repeat 47%N k)) =
    GRAPHQL_ENDPOINT args /\
  exists stem : str,
    GRAPHQL_ENDPOINT args = stem ++ lit "/api/graphql" /\
    (stem = [] \/ exists s' x, stem = s' ++ [x] /\ x <> 47%N) /\
    (exists rest : nat, domain args = stem ++ repeat 47%N rest).
Proof.
  split.
  - unfold GRAPHQL_ENDPOINT, with_domain. cbn [domain].
    rewrite rstrip_repeat. reflexivity.
  - exists (rstrip 47%N (domain args)).
    split; [reflexivity |]. split; [apply rstrip_last |].
    apply rstrip_split.
Qed.

(** ** The loop outside and inside the plans it completes *)

Lemma bind_ret {A B} (a : A) (f : A -> M B) : bind (ret a) f = f a.
Proof. unfold bind, ret. destruct (f a). reflexivity. Qed.

Lemma mod_opp_zero (x b : Z) : (x mod - b =? 0) = (x mod b =? 0).
Proof.
  destruct (Z.eq_dec b 0) as [-> | Hb]; [reflexivity |].
  destruct (Z.eqb_spec (x mod b) 0) as [H | H].
  - apply Z.eqb_eq. apply Z.mod_opp_r_z; assumption.
  - apply Z.eqb_neq. intros H'. apply H.
    apply Z.mod_divide in H'; [| lia].
    apply Z.mod_divide; [exact Hb |].
    apply Z.divide_opp_l in H'. rewrite Z.opp_involutive in H'. exact H'.
Qed.

Lemma threading_loop_opp (args args' : Args) :
  delay args' = delay args ->
  batch_delay args' = batch_delay args ->
  batch_size args' = - batch_size args ->
  forall (n : nat) (i : Z) (ts : list Z),
    threading_loop args' n i ts = threading_loop args n i ts.
Proof.
  intros Hd Hbd Hbs. induction n as [| n IH]; intros i ts; [reflexivity |].
  cbn [threading_loop]. rewrite Hd, Hbd, Hbs, IH.
  f_equal. f_equal.
  unfold py_mod.
  destruct (Z.eqb_spec (batch_size args) 0) as [Hz | Hnz].
  - rewrite Hz. reflexivity.
  - destruct (Z.eqb_spec (- batch_size args) 0) as [Hz' | _]; [lia |].
    rewrite !bind_ret, mod_opp_zero. reflexivity.
Qed.

(** X2. A negative [--batch-size] is accepted and acts as its absolute
    value: the main thread does the same with [-b] as with [b]. *)
Theorem batch_size_sign_ignored
    (json_dumps : pyvalue -> str) (stdin_input : str -> result str)
    (temp_payload_file_name : str) (args : Args) :
  threading_logic (with_batch_size args (- batch_size args)) =
    threading_logic args /\
  main json_dumps stdin_input temp_payload_file_name
    (with_batch_size args (- batch_size args)) =
    main json_dumps stdin_input temp_payload_file_name args.
Proof.
  assert (H : threading_logic (with_batch_size args (- batch_size args)) =
              threading_logic args).
  { unfold threading_logic. cbn [with_batch_size threads].
    apply threading_loop_opp; reflexivity. }
  split; [exact H |].
  unfold main. rewrite H. reflexivity.
Qed.












(** X13. With a thread count that is zero or negative the main thread
    starts nothing and checks nothing: it writes the payload file and
    cleans up, whatever the batch size and the delays, a zero batch size
    and negative delays included; it returns if [input] returns and ends
    with the exception of [input] otherwise. *)
Theorem no_thread_no_check
    (json_dumps : pyvalue -> str) (stdin_input : str -> result str)
    (temp_payload_file_name : str) (args : Args) :
  threads args <= 0 ->
  threading_logic args = ([], Returned []) /\
  main json_dumps stdin_input temp_payload_file_name args =
    (actions (build_payload json_dumps temp_payload_file_name args)
       ++ actions (clean_up stdin_input temp_payload_file_name),
     completion (clean_up stdin_input temp_payload_file_name)) /\
  completion (main json_dumps stdin_input temp_payload_file_name args) =
    match stdin_input (lit "Press Enter to exit...") with
    | Returned _ => Returned tt
    | Raises e => Raises e
    end.
Proof.
  intros Hn.
  assert (H : threading_logic args = ([], Returned [])).
  { unfold threading_logic.
    replace (Z.to_nat (threads args)) with 0%nat by lia. reflexivity. }
  split; [exact H |].
  assert (Hmain :
    main json_dumps stdin_input temp_payload_file_name args =
    (actions (build_payload json_dumps temp_payload_file_name args)
       ++ actions (clean_up stdin_input temp_payload_file_name),
     completion (clean_up stdin_input temp_payload_file_name))).
  { unfold main.
    rewrite (bind_returned _ _ tt) by reflexivity.
    rewrite (bind_returned _ _ []) by (rewrite H; reflexivity).
    rewrite H. cbn [join_all]. rewrite bind_ret. reflexivity. }
  split; [exact Hmain |].
  rewrite Hmain, clean_up_eq. reflexivity.
Qed.





(** ** More on the shape of the main thread *)

Lemma range_In (x : Z) (n : nat) : In x (range n) <-> 0 <= x < Z.of_nat n.
Proof.
  unfold range. rewrite in_map_iff. split.
  - intros (k & <- & Hk). apply in_seq in Hk. lia.
  - intros H. exists (Z.to_nat x). split; [lia |]. apply in_seq. lia.
Qed.

Lemma upfrom_prefix (l1 l2 : list Z) :
  forall (i : Z) (n : nat),
    upfrom i n = l1 ++ l2 ->
    l1 = upfrom i (List.length l1) /\ (List.length l1 <= n)%nat.
Proof.
  induction l1 as [| x l1 IH]; intros i n H.
  - split; [reflexivity | simpl; lia].
  - destruct n as [| n]; [discriminate |].
    rewrite upfrom_S in H. simpl in H. inversion H; subst.
    destruct (IH _ _ H2) as [Hl Hn].
    split; [| simpl; lia].
    cbn [List.length]. rewrite upfrom_S. f_equal. exact Hl.
Qed.

Lemma range_prefix (n : nat) (l1 l2 : list Z) :
  range n = l1 ++ l2 ->
  l1 = range (List.length l1) /\ (List.length l1 <= n)%nat.
Proof. apply (upfrom_prefix l1 l2 0 n). Qed.

Lemma range_split (n i : nat) :
  (i <= n)%nat -> exists rest, range n = range i ++ rest.
Proof.
  intros H. unfold range.
  replace n with (i + (n - i))%nat by lia.
  rewrite seq_app, map_app. eexists. reflexivity.
Qed.

Section MoreShape.

Variable json_dumps : pyvalue -> str.
Variable stdin_input : str -> result str.
Variable temp_payload_file_name : str.

Local Abbreviation name := temp_payload_file_name.
Local Abbreviation prog := (main_program json_dumps stdin_input name).
Local Abbreviation build := (build_payload json_dumps name).
Local Abbreviation tidy := (clean_up stdin_input name).
Local Abbreviation whole := (main json_dumps stdin_input name).

(** The main thread, by parts: the payload, the loop, and, when the loop
    returns, the joins and the clean-up. *)
Lemma main_shape_detail (args : Args) :
  exists (k : nat) (loop fin : list action),
    prog args = (actions (build args) ++ loop) ++ fin /\
    forallb launch_action loop = true /\
    started loop = range k /\
    (k <= Z.to_nat (threads args))%nat /\
    ((fin = [] /\
      exists e, completion (threading_logic args) = Raises e /\
                completion (whole args) = Raises e) \/
     (fin = map ThreadJoin (range k) ++ actions tidy /\
      k = Z.to_nat (threads args) /\
      (exists ts, completion (threading_logic args) = Returned ts) /\
      completion (whole args) = completion tidy)).
Proof.
  destruct (threading_loop_shape args (Z.to_nat (threads args)) 0 [])
    as (k & Hk & Hla & Hst & Hret).
  fold (threading_logic args) in Hla, Hst, Hret.
  exists k, (actions (threading_logic args)).
  unfold main_program, main.
  rewrite (bind_returned _ _ tt) by reflexivity.
  destruct (completion (threading_logic args)) as [ts | e] eqn:Hc.
  - destruct (Hret ts eq_refl) as [-> ->]. simpl app.
    rewrite (bind_returned _ _ _ Hc).
    rewrite (bind_returned _ _ tt) by (rewrite join_all_eq; reflexivity).
    rewrite join_all_eq.
    exists (map ThreadJoin (range (Z.to_nat (threads args)))
              ++ actions tidy).
    split; [unfold actions; cbn [fst]; reflexivity |].
    split; [exact Hla |]. split; [exact Hst |]. split; [exact Hk |].
    right. split; [reflexivity |]. split; [reflexivity |].
    split; [eexists; reflexivity | reflexivity].
  - rewrite (bind_raises _ _ _ Hc).
    exists []. split; [unfold actions; cbn [fst]; rewrite !app_nil_r;
                       reflexivity |].
    split; [exact Hla |]. split; [exact Hst |]. split; [exact Hk |].
    left. split; [reflexivity |]. exists e. split; reflexivity.
Qed.

Lemma main_started_le (args : Args) :
  exists k : nat,
    started (prog args) = range k /\ (k <= Z.to_nat (threads args))%nat.
Proof.
  destruct (main_shape_detail args)
    as (k & loop & fin & Hprog & Hla & Hst & Hk & Hfin).
  exists k. split; [| exact Hk].
  rewrite Hprog, !started_app, Hst.
  change (started (actions (build args))) with (@nil Z).
  destruct Hfin as [(-> & _) | (-> & _)]; [apply app_nil_r |].
  rewrite started_app, started_joins, clean_up_started. apply app_nil_r.
Qed.

(** Every file action of the main thread is on the payload file. *)
Lemma main_files (args : Args) (a : action) :
  In a (prog args) -> touches_files a = false \/ file_of a = Some name.
Proof.
  destruct (main_shape json_dumps stdin_input name args)
    as (k & mid & fin & Hprog & Hmid & _ & Hfin).
  rewrite Hprog. intros H. apply in_app_or in H as [H | H].
  - rewrite build_actions_eq in H.
    destruct H as [<- | [<- | [<- | [<- | [<- | [<- | [<- | []]]]]]]]; auto.
  - apply in_app_or in H as [H | H].
    + left. rewrite forallb_forall in Hmid. specialize (Hmid _ H).
      destruct (touches_files a); [discriminate | reflexivity].
    + destruct Hfin as [(-> & _) | (-> & _)]; [destruct H |].
      destruct (clean_up_actions stdin_input name) as (rest & Hrest & Hn & _).
      rewrite Hrest in H. destruct H as [<- | H]; [right; reflexivity |].
      left. rewrite forallb_forall in Hn. specialize (Hn _ H).
      destruct (touches_files a); [discriminate | reflexivity].
Qed.

End MoreShape.

(** ** More on the run *)

Lemma replay_other (name n : str) (l : list action) (fs : filesystem) :
  n <> name ->
  (forall a, In a l -> touches_files a = false \/ file_of a = Some name) ->
  replay l fs n = fs n.
Proof.
  intros Hn. revert fs. induction l as [| a l IH]; intros fs H;
    [reflexivity |].
  unfold replay. cbn [fold_left]. fold (replay l (fs_effect a fs)).
  rewrite IH by (intros b Hb; apply H; right; exact Hb).
  destruct (H a (or_introl eq_refl)) as [Ha | Ha].
  - rewrite fs_effect_neutral by exact Ha. reflexivity.
  - destruct a; try discriminate; cbn [file_of] in Ha;
      inversion Ha; subst; cbn [fs_effect].
    + unfold fs_write. destruct (str_eq_dec n name); [contradiction |].
      reflexivity.
    + destruct (fs name); unfold fs_write;
        (destruct (str_eq_dec n name); [contradiction | reflexivity]).
    + reflexivity.
    + unfold fs_remove. destruct (str_eq_dec n name); [contradiction |].
      reflexivity.
Qed.

(** ** Workers run to their end *)

Lemma pool_cases (p : list (Z * list action)) :
  Forall (fun t => snd t = []) p \/
  exists k i a rest, nth_error p k = Some (i, a :: rest).
Proof.
  induction p as [| [i todo] p IH]; [left; constructor |].
  destruct todo as [| a rest].
  - destruct IH as [IH | (k & j & a & rest & Hk)].
    + left. constructor; [reflexivity | exact IH].
    + right. exists (S k), j, a, rest. exact Hk.
  - right. exists 0%nat, i, a, rest. reflexivity.
Qed.

(** Whatever the main thread is doing, the started threads can be run to
    their ends. *)
Lemma workers_can_finish (target : Z -> list action) (m : nat) :
  forall c,
    list_sum (map (fun t => List.length (snd t)) (pool c)) = m ->
    exists sched c',
      exec target sched c = Some c' /\
      main_todo c' = main_todo c /\
      Forall (fun t => snd t = []) (pool c').
Proof.
  induction m as [| m IH]; intros c Hm.
  - exists [], c. split; [reflexivity |]. split; [reflexivity |].
    destruct (pool_cases (pool c)) as [H | (k & i & a & rest & Hk)];
      [exact H |].
    pose proof (update_sum _ _ _ _ _ Hk) as Hs. lia.
  - destruct (pool_cases (pool c)) as [H | (k & i & a & rest & Hk)].
    + exists [], c. split; [reflexivity |]. split; [reflexivity | exact H].
    + pose proof (update_sum _ _ _ _ _ Hk) as Hs.
      destruct (IH (mkConfig (main_todo c) (update k (i, rest) (pool c))
                      (fs_effect a (files c))
                      (log c ++ [WorkerDid i a (files c)])))
        as (sched & c' & Hexec & Htodo & Hall).
      * cbn [pool]. lia.
      * exists (Thread k :: sched), c'.
        split; [| split; [exact Htodo | exact Hall]].
        cbn [exec step]. unfold thread_step. rewrite Hk. exact Hexec.
Qed.

Lemma tally_app (f : action -> nat) (l1 l2 : list action) :
  tally f (l1 ++ l2) = (tally f l1 + tally f l2)%nat.
Proof. unfold tally. rewrite map_app, list_sum_app. reflexivity. Qed.

(** What the workers have done, in all, is the sum of what each has. *)
Lemma tally_workers (f : action -> nat) (l : list event) (ids : list Z) :
  NoDup ids ->
  (forall i, ~ In i ids -> worker_log i l = []) ->
  tally f (workers_log l) =
    list_sum (map (fun i => tally f (worker_log i l)) ids).
Proof.
  intros Hnd. induction l as [| [a | j a fs] l IH]; intros Hout.
  - simpl. symmetry. clear. induction ids as [| i ids IH]; [reflexivity |].
    simpl. exact IH.
  - simpl. apply IH. exact Hout.
  - assert (Hj : In j ids).
    { destruct (in_dec Z.eq_dec j ids) as [H | H]; [exact H |].
      specialize (Hout j H). simpl in Hout. rewrite Z.eqb_refl in Hout.
      discriminate. }
    assert (Hout' : forall i, ~ In i ids -> worker_log i l = []).
    { intros i Hi. specialize (Hout i Hi). simpl in Hout.
      destruct (j =? i); [discriminate | exact Hout]. }
    cbn [workers_log].
    change (a :: workers_log l) with ([a] ++ workers_log l).
    rewrite tally_app, (IH Hout').
    rewrite <- (sum_single j _ _ ids Hnd Hj).
    f_equal. apply map_ext. intros i. cbn [worker_log].
    destruct (j =? i); [| reflexivity].
    change (a :: worker_log i l) with ([a] ++ worker_log i l).
    rewrite tally_app. reflexivity.
Qed.

Lemma list_sum_le_ones {A} (f : A -> nat) (l : list A) :
  (forall x, In x l -> (f x <= 1)%nat) ->
  (list_sum (map f l) <= List.length l)%nat.
Proof.
  induction l as [| x l IH]; intros H; [simpl; lia |].
  simpl. specialize (H x (or_introl eq_refl)) as Hx.
  assert (Hl : (list_sum (map f l) <= List.length l)%nat).
  { apply IH. intros y Hy. apply H. right. exact Hy. }
  lia.
Qed.

Section MoreRun.

Variable subprocess_run : Z -> list str -> result CompletedProcess.
Variable json_loads : str -> result pyvalue.
Variable json_dumps : pyvalue -> str.
Variable json_dumps_indent2 : pyvalue -> result str.
Variable stdin_input : str -> result str.
Variable temp_payload_file_name : str.

Local Abbreviation name := temp_payload_file_name.
Local Abbreviation target :=
  (worker_target subprocess_run json_loads json_dumps_indent2 name).
Local Abbreviation prog := (main_program json_dumps stdin_input name).
Local Abbreviation whole := (main json_dumps stdin_input name).
Local Abbreviation tidy := (clean_up stdin_input name).
Local Abbreviation run_of :=
  (runs subprocess_run json_loads json_dumps json_dumps_indent2 stdin_input
     name).

(** X6. At every point of every run, whatever the plan, the threads that
    have been started are 0, 1, ..., k-1, in that order, for some k that
    does not exceed the thread count. *)
Theorem started_in_index_order (args : Args) (fs0 : filesystem)
    (sched : list pick) (c : config) :
  run_of args fs0 sched = Some c ->
  exists k : nat,
    map fst (pool c) = range k /\ (k <= Z.to_nat (threads args))%nat.
Proof.
  intros Hrun.
  pose proof (run_invariant _ _ _ _ _ _ _ _ _ _ Hrun) as (Hprog & _ & Hpool & _).
  destruct (main_started_le json_dumps stdin_input name args) as (k & Hk & Hle).
  rewrite Hprog, started_app, <- Hpool in Hk.
  symmetry in Hk. apply range_prefix in Hk as [Hp Hlen].
  exists (List.length (map fst (pool c))). split; [exact Hp | lia].
Qed.

(** X7. The main thread joins a thread only once it has started all of
    them, and it joins them in the order of their indices. *)
Theorem joins_after_all_starts (args : Args) (fs0 : filesystem)
    (sched : list pick) (c : config) (i : Z) :
  run_of args fs0 sched = Some c ->
  In (MainDid (ThreadJoin i)) (log c) ->
  map fst (pool c) = range (Z.to_nat (threads args)) /\
  0 <= i < threads args /\
  (forall j, 0 <= j < i -> In (MainDid (ThreadJoin j)) (log c)).
Proof.
  intros Hrun Hin.
  pose proof (run_invariant _ _ _ _ _ _ _ _ _ _ Hrun) as (Hprog & _ & Hpool & _).
  apply main_log_In in Hin.
  destruct (main_shape_detail json_dumps stdin_input name args)
    as (k & loop & fin & Hshape & Hla & Hst & Hk & Hfin).
  rewrite Hprog in Hshape.
  destruct (prefix_past _ _ _ _ _ Hshape Hin) as (m & Hdone & Hm & Him).
  { intros H. apply in_app_or in H as [H | H].
    - apply build_no_thread in H as (_ & _ & H). apply (H i). reflexivity.
    - apply (launch_no_join _ i Hla). exact H. }
  destruct Hfin as [(-> & _) | (-> & -> & _)].
  { destruct m; [destruct Him | discriminate]. }
  assert (Hi : In i (range (Z.to_nat (threads args)))).
  { assert (H : In (ThreadJoin i)
                  (map ThreadJoin (range (Z.to_nat (threads args)))
                     ++ actions tidy)).
    { rewrite Hm. apply in_or_app. left. exact Him. }
    apply in_app_or in H as [H | H].
    - apply in_map_iff in H as (j & Hj & H). inversion Hj; subst. exact H.
    - exfalso. exact (clean_up_no_join stdin_input name i H). }
  apply range_In in Hi.
  split.
  - rewrite Hpool, Hdone, !started_app, Hst.
    change (started (actions (build_payload json_dumps name args)))
      with (@nil Z).
    assert (Hs : started (map ThreadJoin (range (Z.to_nat (threads args)))
                            ++ actions tidy) = []).
    { rewrite started_app, started_joins. apply clean_up_started. }
    rewrite Hm, started_app in Hs. apply app_eq_nil in Hs as [-> _].
    apply app_nil_r.
  - split; [lia |]. intros j Hj. apply main_log_In.
    rewrite Hdone. apply in_or_app. right.
    destruct (range_split (Z.to_nat (threads args)) (Z.to_nat i))
      as [rest Hrest]; [lia |].
    rewrite Hrest, map_app, <- app_assoc in Hm. symmetry in Hm.
    destruct (prefix_past (ThreadJoin i) _ _ _ _ Hm Him) as (m' & -> & _).
    { intros H. apply in_map_iff in H as (x & Hx & H).
      inversion Hx; subst. apply range_In in H. lia. }
    apply in_or_app. left. apply in_map. apply range_In. lia.
Qed.

(** X8. When the loop ends with an exception, the main thread ends with
    it, having joined no thread and not removed the payload file: once it
    has taken all its actions the file is still there, with the
    payload. *)
Theorem failed_main_leaves_file (args : Args) (fs0 : filesystem)
    (sched : list pick) (c : config) (e : exn) :
  completion (threading_logic args) = Raises e ->
  run_of args fs0 sched = Some c ->
  completion (whole args) = Raises e /\
  ~ In (MainDid (OsRemove name)) (log c) /\
  (forall i, ~ In (MainDid (ThreadJoin i)) (log c)) /\
  (main_todo c = [] -> files c name = Some (json_dumps payload)).
Proof.
  intros Hc Hrun.
  pose proof (run_invariant _ _ _ _ _ _ _ _ _ _ Hrun)
    as (Hprog & Hfiles & _).
  destruct (main_shape_detail json_dumps stdin_input name args)
    as (k & loop & fin & Hshape & Hla & Hst & Hk & Hfin).
  destruct Hfin as [(-> & e' & He' & Hwhole) | (_ & _ & [ts Hts] & _)];
    [| rewrite Hts in Hc; discriminate].
  rewrite app_nil_r in Hshape.
  assert (Hsub : forall a, In a (main_log (log c)) ->
                           In a (actions (build_payload json_dumps name args))
                           \/ In a loop).
  { intros a Ha. apply in_app_or. rewrite <- Hshape, Hprog.
    apply in_or_app. left. exact Ha. }
  split; [rewrite Hwhole; congruence |].
  split.
  { intros H. apply main_log_In, Hsub in H as [H | H].
    - apply build_no_thread in H as (_ & H & _). apply H. reflexivity.
    - rewrite forallb_forall in Hla. specialize (Hla _ H). discriminate. }
  split.
  { intros i H. apply main_log_In, Hsub in H as [H | H].
    - apply build_no_thread in H as (_ & _ & H). apply (H i). reflexivity.
    - apply (launch_no_join _ i Hla). exact H. }
  intros Hdone. rewrite Hdone, app_nil_r in Hprog.
  rewrite Hfiles, <- Hprog, Hshape, replay_app.
  rewrite (replay_neutral _ _ (launch_neutral _ Hla)).
  apply replay_build.
Qed.

(** X12. A run creates, writes and removes the payload file and no other:
    every other file is, at every point, as it was at the start. *)
Theorem other_files_untouched (args : Args) (fs0 : filesystem)
    (sched : list pick) (c : config) (n : str) :
  run_of args fs0 sched = Some c ->
  n <> name ->
  files c n = fs0 n.
Proof.
  intros Hrun Hn.
  pose proof (run_invariant _ _ _ _ _ _ _ _ _ _ Hrun)
    as (Hprog & Hfiles & _).
  rewrite Hfiles. apply (replay_other name); [exact Hn |].
  intros a Ha. apply (main_files json_dumps stdin_input name args).
  rewrite Hprog. apply in_or_app. left. exact Ha.
Qed.

(** X9. Whatever the plan, and whether the main thread returns or ends
    with an exception, a run can always be continued until the main thread
    and every started thread have taken all their actions; and whenever
    every started thread has, each of them has recorded exactly one
    outcome: as many outcomes as threads started. *)
Theorem started_workers_report (args : Args) (fs0 : filesystem)
    (sched : list pick) (c : config) :
  run_of args fs0 sched = Some c ->
  (exists sched' c',
      run_of args fs0 (sched ++ sched') = Some c' /\
      main_todo c' = [] /\
      Forall (fun t => snd t = []) (pool c')) /\
  (Forall (fun t => snd t = []) (pool c) ->
   (forall i, In i (map fst (pool c)) ->
      worker_log i (log c) = target args i /\
      exists o, recorded (worker_log i (log c)) = [o]) /\
   List.length (recorded (workers_log (log c))) = List.length (pool c)).
Proof.
  intros Hrun. split.
  - destruct (run_can_complete _ _ _ _ _ _ _ _ _ _ Hrun)
      as (s1 & c1 & Hrun1 & Hend1).
    destruct (workers_can_finish (target args) _ c1 eq_refl)
      as (s2 & c2 & Hexec2 & Htodo2 & Hall2).
    exists (s1 ++ s2), c2.
    split; [| split; [rewrite Htodo2; exact Hend1 | exact Hall2]].
    unfold runs in *. rewrite app_assoc, exec_app, Hrun1. exact Hexec2.
  - intros Hall.
    pose proof (run_invariant _ _ _ _ _ _ _ _ _ _ Hrun) as Hinv.
    pose proof (pool_nodup _ _ _ (main_started_nodup json_dumps stdin_input name args)
                  c Hinv) as Hnd.
    destruct Hinv as (_ & _ & Hpool & _ & Hthreads & Hfresh & _).
    assert (Heach : forall i, In i (map fst (pool c)) ->
                              worker_log i (log c) = target args i).
    { intros i Hi. apply in_map_iff in Hi as ([j todo] & Hj & Hi).
      simpl in Hj. subst j.
      rewrite Forall_forall in Hthreads, Hall.
      specialize (Hthreads _ Hi). specialize (Hall _ Hi).
      cbn [fst snd] in *. subst todo. rewrite app_nil_r in Hthreads.
      symmetry. exact Hthreads. }
    split.
    + intros i Hi. split; [apply Heach; exact Hi |].
      rewrite (Heach i Hi). apply worker_records_one.
    + rewrite (recorded_count _ (map fst (pool c)) Hnd).
      * rewrite list_sum_ones; [apply length_map |].
        intros i Hi. rewrite (Heach i Hi).
        destruct (worker_records_one subprocess_run json_loads
                    json_dumps_indent2 name args i) as [o ->].
        reflexivity.
      * intros i Hi. apply Hfresh. rewrite <- Hpool. exact Hi.
Qed.

(** X11. A worker runs curl once, whatever comes back: at every point of a
    run the workers have made at most as many requests as threads have
    been started, and exactly as many once the started threads have taken
    all their actions. *)
Theorem one_request_per_worker (args : Args) (fs0 : filesystem)
    (sched : list pick) (c : config) :
  run_of args fs0 sched = Some c ->
  (tally request_count (workers_log (log c)) <= List.length (pool c))%nat /\
  (Forall (fun t => snd t = []) (pool c) ->
   tally request_count (workers_log (log c)) = List.length (pool c)).
Proof.
  intros Hrun.
  pose proof (run_invariant _ _ _ _ _ _ _ _ _ _ Hrun) as Hinv.
  pose proof (pool_nodup _ _ _ (main_started_nodup json_dumps stdin_input name args)
                c Hinv) as Hnd.
  destruct Hinv as (_ & _ & Hpool & _ & Hthreads & Hfresh & _).
  assert (Hone : forall i, tally request_count (target args i) = 1%nat).
  { intros i. rewrite worker_target_eq. reflexivity. }
  rewrite (tally_workers _ _ (map fst (pool c)) Hnd)
    by (intros i Hi; apply Hfresh; rewrite <- Hpool; exact Hi).
  rewrite Forall_forall in Hthreads.
  split.
  - rewrite <- (length_map fst (pool c)). apply list_sum_le_ones.
    intros i Hi. apply in_map_iff in Hi as ([j todo] & Hj & Hi).
    simpl in Hj. subst j. specialize (Hthreads _ Hi). cbn [fst snd] in *.
    pose proof (Hone i) as H. rewrite Hthreads, tally_app in H. lia.
  - intros Hall. rewrite Forall_forall in Hall.
    rewrite list_sum_ones; [apply length_map |].
    intros i Hi. apply in_map_iff in Hi as ([j todo] & Hj & Hi).
    simpl in Hj. subst j. specialize (Hthreads _ Hi). specialize (Hall _ Hi).
    cbn [fst snd] in *. subst todo. rewrite app_nil_r in Hthreads.
    rewrite <- Hthreads. apply Hone.
Qed.

(** X16. When the loop returns, the main thread joins the threads
    0 .. N-1 and then cleans up, and the clean-up removes the payload file
    before it prompts: once the main thread has taken all its actions the
    file is gone, whether [input] returns or raises, and the main thread
    returns or ends with the exception of [input] accordingly. *)
Theorem file_removed_before_prompt (args : Args) (fs0 : filesystem)
    (sched : list pick) (c : config) (ts : list Z) :
  completion (threading_logic args) = Returned ts ->
  run_of args fs0 sched = Some c ->
  main_todo c = [] ->
  files c name = None /\
  (exists before after : list action,
      main_log (log c) = before ++ OsRemove name :: after /\
      In (Input (lit "Press Enter to exit...")) after /\
      (forall i, In i (range (Z.to_nat (threads args))) ->
                 In (ThreadJoin i) before)) /\
  completion (whole args) =
    match stdin_input (lit "Press Enter to exit...") with
    | Returned _ => Returned tt
    | Raises e => Raises e
    end.
Proof.
  intros Hc Hrun Hdone.
  pose proof (run_invariant _ _ _ _ _ _ _ _ _ _ Hrun)
    as (Hprog & Hfiles & _).
  rewrite Hdone, app_nil_r in Hprog.
  destruct (main_shape json_dumps stdin_input name args)
    as (k & mid & fin & Hshape & Hmid & Hst & Hfin).
  destruct Hfin as [(_ & (e & He & _) & _) | (-> & _ & Hwhole & -> & Hjoined)];
    [rewrite He in Hc; discriminate |].
  rewrite Hprog in Hshape.
  split.
  { rewrite Hfiles, Hshape, !replay_app. apply replay_clean_up. }
  split.
  - rewrite Hshape, clean_up_eq. unfold actions at 2. cbn [fst app].
    exists (actions (build_payload json_dumps name args) ++ mid).
    eexists. split; [rewrite <- app_assoc; reflexivity |].
    split; [right; right; left; reflexivity |].
    intros i Hi. apply in_or_app. right. apply Hjoined. exact Hi.
  - rewrite Hwhole, clean_up_eq. reflexivity.
Qed.

End MoreRun.

(** ** When the loop returns *)





(** * Concrete runs *)

(** The reports of a worker. *)

Example request_success :
  toy_request (toy_args 5 3) 0 =
    ([ Print (StartingRequest 0);
       SubprocessRun (curl_command toy_name (toy_args 5 3));
       Print (SuccessPartialJSON 0 (lit "{...}")) ],
     Returned tt).
Proof. reflexivity. Qed.

Example request_curl_error :
  toy_request (toy_args 5 3) 1 =
    ([ Print (StartingRequest 1);
       SubprocessRun (curl_command toy_name (toy_args 5 3));
       Print (CurlError 1 (lit "curl: (7) Failed to connect")) ],
     Returned tt).
Proof. reflexivity. Qed.

Example request_invalid_json :
  toy_request (toy_args 5 3) 2 =
    ([ Print (StartingRequest 2);
       SubprocessRun (curl_command toy_name (toy_args 5 3));
       Print (InvalidJSONResponse 2 (lit "<html>")) ],
     Returned tt).
Proof. reflexivity. Qed.

Example request_exception :
  toy_request (toy_args 5 3) 3 =
    ([ Print (StartingRequest 3);
       SubprocessRun (curl_command toy_name (toy_args 5 3));
       Print (ExceptionLine 3
                (lit "[Errno 2] No such file or directory: 'curl'")) ],
     Returned tt).
Proof. reflexivity. Qed.

Example request_deep_body :
  toy_request (toy_args 5 3) 4 =
    ([ Print (StartingRequest 4);
       SubprocessRun (curl_command toy_name (toy_args 5 3));
       Print (ExceptionLine 4 (exn_msg toy_recursion_error)) ],
     Returned tt).
Proof. vm_compute. reflexivity. Qed.

Example request_command :
  curl_command toy_name (toy_args 5 3) =
    [ lit "curl"; lit "-k"; lit "-s"; lit "-X"; lit "POST";
      lit "https://gitlab.example.com/api/graphql";
      lit "-H"; lit "Content-Type: application/json";
      lit "-d@/tmp/tmpk3v9x2ab.json" ].
Proof. reflexivity. Qed.

(** [time.sleep] around its bounds. *)

Example sleep_bounds :
  time_sleep 0 = ([TimeSleep 0], Returned tt) /\
  time_sleep (9223372036854774 # 1000000) =
    ([TimeSleep (9223372036854774 # 1000000)], Returned tt) /\
  time_sleep (9223372036854776 # 1000000) =
    ([], Raises (mkExn ValueError (lit "sleep length must be non-negative")))
  /\
  time_sleep (9223372036854778 # 1000000) = ([], Raises toy_overflow) /\
  time_sleep (10000000000 # 1) = ([], Raises toy_overflow) /\
  time_sleep (-1 # 1000000000) =
    ([], Raises (mkExn ValueError (lit "sleep length must be non-negative")))
  /\
  time_sleep (-10000000000 # 1) = ([], Raises toy_overflow).
Proof. repeat split; vm_compute; reflexivity. Qed.

(** The loop outside the plans it completes. *)

Example loop_no_thread : threading_logic (toy_args (-4) 3) = ([], Returned []).
Proof. reflexivity. Qed.

Example loop_negative_delay :
  threading_logic (mkArgs [] 3 (-1 # 1) (5 # 1) 2) =
    ([ Print (CreatingThread 0); ThreadStart 0;
       Print (SleepingBeforeNext (-1 # 1)) ],
     Raises (mkExn ValueError (lit "sleep length must be non-negative"))).
Proof. reflexivity. Qed.

Example loop_negative_batch_size :
  pacing (actions (threading_logic (toy_args 3 (-2)))) =
    [ ThreadStart 0; TimeSleep (1 # 1);
      ThreadStart 1; TimeSleep (5 # 1); TimeSleep (1 # 1);
      ThreadStart 2; TimeSleep (1 # 1) ].
Proof. reflexivity. Qed.

(** The clean-up when the input is at its end. *)

Example clean_up_at_end_of_input :
  clean_up toy_input_eof toy_name =
    ([ OsRemove toy_name;
       Print (RemovedTemporaryFile toy_name);
       Print AllThreadsCompleted;
       Input (lit "Press Enter to exit...") ],
     Raises (mkExn EOFError (lit "EOF when reading a line"))).
Proof. reflexivity. Qed.

(** The run of two workers under [toy_schedule]. *)

Example toy_run_outcomes :
  recorded (workers_log (log toy_final)) =
    [ Success (lit "{...}");
      TransportFailure (lit "curl: (7) Failed to connect") ].
Proof. vm_compute. reflexivity. Qed.

Example toy_run_order :
  map (fun e => match e with
                | MainDid (ThreadStart i) => (lit "start", i)
                | MainDid (ThreadJoin i) => (lit "join", i)
                | MainDid (OsRemove _) => (lit "remove", -1)
                | MainDid _ => (lit "main", -1)
                | WorkerDid i _ _ => (lit "worker", i)
                end)
    (skipn 7 (log toy_final)) =
    [ (lit "main", -1); (lit "start", 0); (lit "worker", 0);
      (lit "main", -1); (lit "main", -1); (lit "main", -1);
      (lit "start", 1); (lit "worker", 1); (lit "worker", 0);
      (lit "main", -1); (lit "main", -1); (lit "worker", 1);
      (lit "worker", 0); (lit "join", 0); (lit "worker", 1);
      (lit "join", 1); (lit "remove", -1);
      (lit "main", -1); (lit "main", -1); (lit "main", -1);
      (lit "main", -1) ].
Proof. vm_compute. reflexivity. Qed.

(** ** Plans of the specification that the loop does not complete *)

Lemma toy_plan_valid (n size : Z) : 0 < size -> valid_plan (toy_args n size).
Proof.
  intros H. unfold valid_plan, toy_args, Qle. simpl. repeat split; lia.
Qed.





(** C1, as stated, does not hold. Thread 4 gets, from a curl that exits
    with 0, a body of 1000 nested lists: [json.loads] raises
    RecursionError, which the inner handler does not take, and the worker
    reports the exception. The transport has succeeded, and the outcome is
    none of the three that the claim holds to be exhaustive. *)
Lemma deep_body_outside_classification :
  toy_run 4 (curl_command toy_name (toy_args 5 3)) = Returned toy_deep /\
  returncode toy_deep = 0 /\
  toy_loads (stdout toy_deep) = Raises toy_recursion_error /\
  recorded (actions (toy_request (toy_args 5 3) 4)) =
    [RuntimeFault (exn_msg toy_recursion_error)] /\
  ~ (exists o : Outcome,
        recorded (actions (toy_request (toy_args 5 3) 4)) = [o] /\
        ((exists d, o = TransportFailure d) \/
         (exists p, o = MalformedResponse p) \/
         (exists p, o = Success p))).
Proof.
  assert (Hrec : recorded (actions (toy_request (toy_args 5 3) 4)) =
                 [RuntimeFault (exn_msg toy_recursion_error)])
    by (vm_compute; reflexivity).
  split; [reflexivity |]. split; [reflexivity |].
  split; [vm_compute; reflexivity |]. split; [exact Hrec |].
  intros (o & Ho & Hkind). rewrite Hrec in Ho. inversion Ho; subst o.
  destruct Hkind as [[d H] | [[p H] | [p H]]]; discriminate.
Qed.




(** ** The theorems at concrete inputs *)

Lemma make_request_classifies_witness :
  exists o : Outcome,
    recorded (actions (toy_request (toy_args 5 3) 4)) = [o] /\
    (forall d, o = TransportFailure d <->
       exists cp,
         toy_run 4 (curl_command toy_name (toy_args 5 3)) = Returned cp /\
         returncode cp <> 0 /\ d = stderr cp) /\
    (forall p, o = MalformedResponse p <->
       exists cp e,
         toy_run 4 (curl_command toy_name (toy_args 5 3)) = Returned cp /\
         returncode cp = 0 /\
         reserialize toy_loads toy_dumps_indent2 (stdout cp) = Raises e /\
         exn_cls e = JSONDecodeError /\ p = firstn 300 (stdout cp)) /\
    (forall p, o = Success p <->
       exists cp data text,
         toy_run 4 (curl_command toy_name (toy_args 5 3)) = Returned cp /\
         returncode cp = 0 /\ toy_loads (stdout cp) = Returned data /\
         toy_dumps_indent2 data = Returned text /\ p = firstn 400 text) /\
    (forall d, o = RuntimeFault d <->
       exists e,
         d = exn_msg e /\
         (toy_run 4 (curl_command toy_name (toy_args 5 3)) = Raises e \/
          exists cp,
            toy_run 4 (curl_command toy_name (toy_args 5 3)) = Returned cp /\
            returncode cp = 0 /\
            reserialize toy_loads toy_dumps_indent2 (stdout cp) = Raises e /\
            exn_cls e <> JSONDecodeError)).
Proof.
  exact (make_request_classifies toy_run toy_loads toy_dumps_indent2 toy_name
           (toy_args 5 3) 4).
Defined.

Lemma worker_faults_contained_witness :
  completion (toy_body (toy_args 5 3) 3) = Raises toy_missing /\
  recorded (actions (toy_request (toy_args 5 3) 3)) =
    [RuntimeFault (exn_msg toy_missing)] /\
  completion (toy_body (toy_args 5 3) 4) = Raises toy_recursion_error /\
  recorded (actions (toy_request (toy_args 5 3) 4)) =
    [RuntimeFault (exn_msg toy_recursion_error)] /\
  toy_runs (toy_args 2 3) toy_schedule = Some toy_final /\
  exists c',
    runs toy_run_ok toy_loads toy_dumps toy_dumps_indent2 toy_input toy_name
      (toy_args 2 3) no_files toy_schedule = Some c' /\
    main_todo c' = main_todo toy_final /\
    main_log (log c') = main_log (log toy_final) /\
    files c' = files toy_final /\
    map fst (pool c') = map fst (pool toy_final) /\
    (forall i,
        toy_run_ok i (curl_command toy_name (toy_args 2 3)) =
          toy_run i (curl_command toy_name (toy_args 2 3)) ->
        worker_log i (log c') = worker_log i (log toy_final)).
Proof.
  split; [reflexivity |].
  split.
  { apply (proj1 (proj2 (proj2
             (worker_faults_contained toy_run toy_run_ok toy_loads toy_dumps
                toy_dumps_indent2 toy_input toy_name (toy_args 5 3))))).
    reflexivity. }
  split; [vm_compute; reflexivity |].
  split.
  { apply (proj1 (proj2 (proj2
             (worker_faults_contained toy_run toy_run_ok toy_loads toy_dumps
                toy_dumps_indent2 toy_input toy_name (toy_args 5 3))))).
    vm_compute. reflexivity. }
  split; [vm_compute; reflexivity |].
  apply (proj2 (proj2 (proj2
           (worker_faults_contained toy_run toy_run_ok toy_loads toy_dumps
              toy_dumps_indent2 toy_input toy_name (toy_args 2 3))))
           no_files toy_schedule toy_final).
  vm_compute. reflexivity.
Defined.

Lemma make_request_previews_bounded_witness :
  toy_run 2 (curl_command toy_name (toy_args 5 3)) =
    Returned (mkCompleted 0 (lit "<html>") []) /\
  Forall preview_bounded (actions (toy_request (toy_args 5 3) 2)) /\
  recorded (actions (toy_request (toy_args 5 3) 2)) =
    [MalformedResponse (firstn 300 (lit "<html>"))].
Proof.
  split; [reflexivity |].
  split.
  - apply (proj1 (make_request_previews_bounded toy_run toy_loads
                    toy_dumps_indent2 toy_name (toy_args 5 3) 2)).
  - apply (proj2 (make_request_previews_bounded toy_run toy_loads
                    toy_dumps_indent2 toy_name (toy_args 5 3) 2)
             (mkCompleted 0 (lit "<html>") []));
      reflexivity.
Defined.



Lemma payload_shared_witness :
  toy_runs (toy_args 2 3) toy_schedule = Some toy_final /\
  In (1, []) (pool toy_final) /\
  filter touches_files
    (main_program toy_dumps toy_input toy_name (toy_args 2 3)) =
    [TempFileCreate toy_name; FileWrite toy_name (toy_dumps payload)]
      ++ match completion (threading_logic (toy_args 2 3)) with
         | Returned _ => [OsRemove toy_name]
         | Raises _ => []
         end /\
  (forall i,
      filter touches_files
        (worker_target toy_run toy_loads toy_dumps_indent2 toy_name
           (toy_args 2 3) i) = [] /\
      filter is_request
        (worker_target toy_run toy_loads toy_dumps_indent2 toy_name
           (toy_args 2 3) i) =
        [SubprocessRun (curl_command toy_name (toy_args 2 3))]) /\
  last (curl_command toy_name (toy_args 2 3)) [] = lit "-d@" ++ toy_name /\
  (forall i a fs,
      In (WorkerDid i a fs) (log toy_final) ->
      fs toy_name = Some (toy_dumps payload)) /\
  (forall i todo,
      In (i, todo) (pool toy_final) ->
      ~ In (SubprocessRun (curl_command toy_name (toy_args 2 3))) todo ->
      exists fs,
        In (WorkerDid i (SubprocessRun (curl_command toy_name (toy_args 2 3)))
              fs) (log toy_final) /\
        fs toy_name = Some (toy_dumps payload)).
Proof.
  split; [vm_compute; reflexivity |].
  split; [vm_compute; right; left; reflexivity |].
  apply (payload_shared toy_run toy_loads toy_dumps toy_dumps_indent2
           toy_input toy_name (toy_args 2 3) no_files toy_schedule
           toy_final).
  vm_compute. reflexivity.
Defined.

Lemma payload_removed_after_workers_witness :
  toy_runs (toy_args 2 3) toy_schedule = Some toy_final /\
  In (MainDid (OsRemove toy_name)) (log toy_final) /\
  completion (toy_main (toy_args 2 3)) = Returned tt /\
  main_todo toy_final = [] /\
  (map fst (pool toy_final) = range 2 /\
   (forall i, In i (range 2) -> In (MainDid (ThreadJoin i)) (log toy_final)) /\
   Forall (fun t => snd t = [] /\
                    worker_log (fst t) (log toy_final) =
                      worker_target toy_run toy_loads toy_dumps_indent2
                        toy_name (toy_args 2 3) (fst t))
     (pool toy_final)) /\
  files toy_final toy_name = None.
Proof.
  split; [vm_compute; reflexivity |].
  split.
  { apply main_log_In. vm_compute.
    repeat (first [left; reflexivity | right]). }
  split; [vm_compute; reflexivity |]. split; [vm_compute; reflexivity |].
  split.
  - refine (proj1 (proj2 (payload_removed_after_workers toy_run toy_loads
                            toy_dumps toy_dumps_indent2 toy_input toy_name
                            (toy_args 2 3) no_files toy_schedule toy_final
                            _)) _).
    + vm_compute. reflexivity.
    + apply main_log_In. vm_compute.
      repeat (first [left; reflexivity | right]).
  - refine (proj1 (proj1 (proj2 (proj2 (payload_removed_after_workers
                                          toy_run toy_loads toy_dumps
                                          toy_dumps_indent2 toy_input
                                          toy_name (toy_args 2 3)
                                          no_files toy_schedule toy_final
                                          _))) _ _));
      vm_compute; reflexivity.
Defined.

Lemma zero_batch_size_raises_witness :
  batch_size (toy_args 5 0) = 0 /\
  1 <= threads (toy_args 5 0) /\
  exists e : exn,
    exn_cls e = ZeroDivisionError /\
    threading_logic (toy_args 5 0) =
      ([Print (CreatingThread 0); ThreadStart 0], Raises e) /\
    toy_main (toy_args 5 0) =
      (actions (build_payload toy_dumps toy_name (toy_args 5 0))
         ++ [Print (CreatingThread 0); ThreadStart 0],
       Raises e) /\
    pacing (actions (toy_main (toy_args 5 0))) = [ThreadStart 0] /\
    (forall i, ~ In (ThreadJoin i) (actions (toy_main (toy_args 5 0)))).
Proof.
  split; [reflexivity |]. split; [simpl; lia |].
  apply (zero_batch_size_raises toy_dumps toy_input toy_name (toy_args 5 0)).
  - reflexivity.
  - simpl. lia.
Defined.


(** * More concrete runs *)

Example endpoint_of_slashes :
  GRAPHQL_ENDPOINT (mkArgs (lit "https://gitlab.example.com///") 1 0 0 1) =
    lit "https://gitlab.example.com/api/graphql" /\
  GRAPHQL_ENDPOINT (mkArgs (lit "///") 1 0 0 1) = lit "/api/graphql".
Proof. split; reflexivity. Qed.

Example toy_failed_state :
  main_todo toy_failed = [] /\
  map fst (pool toy_failed) = [0] /\
  recorded (workers_log (log toy_failed)) = [Success (lit "{...}")] /\
  files toy_failed toy_name = Some (toy_dumps payload).
Proof. vm_compute. repeat split. Qed.




Lemma no_thread_no_check_witness :
  threads (toy_args (-2) 0) <= 0 /\
  threading_logic (toy_args (-2) 0) = ([], Returned []) /\
  main toy_dumps toy_input_eof toy_name (toy_args (-2) 0) =
    (actions (build_payload toy_dumps toy_name (toy_args (-2) 0))
       ++ actions (clean_up toy_input_eof toy_name),
     completion (clean_up toy_input_eof toy_name)) /\
  completion (main toy_dumps toy_input_eof toy_name (toy_args (-2) 0)) =
    match toy_input_eof (lit "Press Enter to exit...") with
    | Returned _ => Returned tt
    | Raises e => Raises e
    end.
Proof.
  assert (H : threads (toy_args (-2) 0) <= 0) by (simpl; lia).
  split; [exact H |].
  apply (no_thread_no_check toy_dumps toy_input_eof toy_name
           (toy_args (-2) 0) H).
Defined.


Lemma started_in_index_order_witness :
  toy_runs (toy_args 2 3) toy_schedule = Some toy_final /\
  exists k : nat,
    map fst (pool toy_final) = range k /\
    (k <= Z.to_nat (threads (toy_args 2 3)))%nat.
Proof.
  split; [vm_compute; reflexivity |].
  apply (started_in_index_order toy_run toy_loads toy_dumps toy_dumps_indent2
           toy_input toy_name (toy_args 2 3) no_files toy_schedule toy_final).
  vm_compute. reflexivity.
Defined.

Lemma joins_after_all_starts_witness :
  toy_runs (toy_args 2 3) toy_schedule = Some toy_final /\
  In (MainDid (ThreadJoin 1)) (log toy_final) /\
  map fst (pool toy_final) = range (Z.to_nat (threads (toy_args 2 3))) /\
  0 <= 1 < threads (toy_args 2 3) /\
  (forall j, 0 <= j < 1 -> In (MainDid (ThreadJoin j)) (log toy_final)).
Proof.
  split; [vm_compute; reflexivity |].
  split.
  { apply main_log_In. vm_compute.
    repeat (first [left; reflexivity | right]). }
  refine (joins_after_all_starts toy_run toy_loads toy_dumps toy_dumps_indent2
            toy_input toy_name (toy_args 2 3) no_files toy_schedule toy_final 1 _ _).
  - vm_compute. reflexivity.
  - apply main_log_In. vm_compute.
    repeat (first [left; reflexivity | right]).
Defined.

Lemma failed_main_leaves_file_witness :
  completion (threading_logic (toy_args 2 0)) =
    Raises (mkExn ZeroDivisionError (lit "integer modulo by zero")) /\
  toy_runs (toy_args 2 0) toy_failed_schedule = Some toy_failed /\
  main_todo toy_failed = [] /\
  completion (toy_main (toy_args 2 0)) =
    Raises (mkExn ZeroDivisionError (lit "integer modulo by zero")) /\
  ~ In (MainDid (OsRemove toy_name)) (log toy_failed) /\
  (forall i, ~ In (MainDid (ThreadJoin i)) (log toy_failed)) /\
  files toy_failed toy_name = Some (toy_dumps payload).
Proof.
  split; [vm_compute; reflexivity |].
  split; [vm_compute; reflexivity |].
  split; [vm_compute; reflexivity |].
  assert (H := failed_main_leaves_file toy_run toy_loads toy_dumps
                 toy_dumps_indent2 toy_input toy_name (toy_args 2 0)
                 no_files toy_failed_schedule toy_failed
                 (mkExn ZeroDivisionError (lit "integer modulo by zero"))).
  destruct H as (H0 & H1 & H2 & H3).
  - vm_compute. reflexivity.
  - vm_compute. reflexivity.
  - split; [exact H0 |]. split; [exact H1 |]. split; [exact H2 |].
    apply H3. vm_compute. reflexivity.
Defined.

Lemma started_workers_report_witness :
  toy_runs (toy_args 2 0) toy_failed_schedule = Some toy_failed /\
  Forall (fun t => snd t = []) (pool toy_failed) /\
  (exists sched' c',
      toy_runs (toy_args 2 0) (toy_failed_schedule ++ sched') = Some c' /\
      main_todo c' = [] /\
      Forall (fun t => snd t = []) (pool c')) /\
  (forall i, In i (map fst (pool toy_failed)) ->
     worker_log i (log toy_failed) =
       worker_target toy_run toy_loads toy_dumps_indent2 toy_name
         (toy_args 2 0) i /\
     exists o, recorded (worker_log i (log toy_failed)) = [o]) /\
  List.length (recorded (workers_log (log toy_failed))) =
    List.length (pool toy_failed).
Proof.
  split; [vm_compute; reflexivity |].
  assert (Hall : Forall (fun t => snd t = []) (pool toy_failed)).
  { vm_compute. repeat constructor. }
  split; [exact Hall |].
  assert (H := started_workers_report toy_run toy_loads toy_dumps toy_dumps_indent2
                 toy_input toy_name (toy_args 2 0) no_files toy_failed_schedule
                 toy_failed).
  destruct H as (H1 & H2).
  - vm_compute. reflexivity.
  - split; [exact H1 |]. exact (H2 Hall).
Defined.

Lemma one_request_per_worker_witness :
  toy_runs (toy_args 2 3) toy_schedule = Some toy_final /\
  Forall (fun t => snd t = []) (pool toy_final) /\
  (tally request_count (workers_log (log toy_final))
   <= List.length (pool toy_final))%nat /\
  tally request_count (workers_log (log toy_final)) =
    List.length (pool toy_final).
Proof.
  split; [vm_compute; reflexivity |].
  assert (Hall : Forall (fun t => snd t = []) (pool toy_final)).
  { vm_compute. repeat constructor. }
  split; [exact Hall |].
  assert (H := one_request_per_worker toy_run toy_loads toy_dumps toy_dumps_indent2
                 toy_input toy_name (toy_args 2 3) no_files toy_schedule toy_final).
  destruct H as (H1 & H2).
  - vm_compute. reflexivity.
  - split; [exact H1 | exact (H2 Hall)].
Defined.

Lemma other_files_untouched_witness :
  toy_runs (toy_args 2 3) toy_schedule = Some toy_final /\
  lit "/etc/hosts" <> toy_name /\
  files toy_final (lit "/etc/hosts") = no_files (lit "/etc/hosts").
Proof.
  split; [vm_compute; reflexivity |].
  assert (Hn : lit "/etc/hosts" <> toy_name) by (vm_compute; discriminate).
  split; [exact Hn |].
  refine (other_files_untouched toy_run toy_loads toy_dumps toy_dumps_indent2
            toy_input toy_name (toy_args 2 3) no_files toy_schedule toy_final
            (lit "/etc/hosts") _ Hn).
  vm_compute. reflexivity.
Defined.

Lemma file_removed_before_prompt_witness :
  completion (threading_logic (toy_args 2 3)) = Returned (range 2) /\
  toy_eof_runs (toy_args 2 3) toy_eof_schedule = Some toy_eof_final /\
  main_todo toy_eof_final = [] /\
  files toy_eof_final toy_name = None /\
  (exists before after : list action,
      main_log (log toy_eof_final) = before ++ OsRemove toy_name :: after /\
      In (Input (lit "Press Enter to exit...")) after /\
      (forall i, In i (range (Z.to_nat (threads (toy_args 2 3)))) ->
                 In (ThreadJoin i) before)) /\
  completion (main toy_dumps toy_input_eof toy_name (toy_args 2 3)) =
    match toy_input_eof (lit "Press Enter to exit...") with
    | Returned _ => Returned tt
    | Raises e => Raises e
    end.
Proof.
  split; [vm_compute; reflexivity |].
  split; [vm_compute; reflexivity |].
  split; [vm_compute; reflexivity |].
  refine (file_removed_before_prompt toy_run toy_loads toy_dumps
            toy_dumps_indent2 toy_input_eof toy_name (toy_args 2 3) no_files
            toy_eof_schedule toy_eof_final (range 2) _ _ _);
    vm_compute; reflexivity.
Defined.

